(** * hdb: a hash database kept in three files

    A shallow embedding of [hdb.h]: the directory file ([hash_file]), the
    data file ([data_file]) and the file of deleted blocks
    ([deleted_blocks]), with the operations [db_open], [db_close], [db_put],
    [db_get] and [db_delete], followed by the properties of the
    specification that were checked against them.

    Conventions of the embedding.
    - A [uint32_t] is a [Z] in [0, 2^32), a [uint64_t] or [size_t] a [Z] in
      [0, 2^64), an [int] a [Z] in [-2^31, 2^31); every wrap-around of the
      source is written out with [u32], [u64], [to_int] and [to_long].
    - A stream is the sequence of bytes of its file and a position. The
      [fsync] calls, the thread that issues them and its mutex are left
      out, and so is the buffer of stdio. The buffer shows in one place:
      [db_delete] cuts the data file with [ftruncate] on the descriptor,
      behind the stream, and a buffer that was filled before the cut can
      still give the bytes cut off to a later [fread] on the same handle.
      What the embedding says of a read beyond the end of the data file
      holds for a stream with no such buffer; the general statements on
      what [db_get] reads take the value to lie within the data file.
    - Objects are laid out little-endian, as on the machines the program is
      built for.
    - The source reads several locals with [fread] without initialising
      them and never looks at what [fread] returns. A read that meets the
      end of the file copies the bytes that are there and leaves the rest of
      the object as it was, so every function takes the contents its locals
      start with as an argument of type [locals]. The same argument
      holds what one run of [db_delete] leaves of the data file where the
      source does not determine it (see [locals]). *)

From Stdlib Require Import String.
From Stdlib Require Import ZArith List Lia Bool.
From coqutil Require Import Byte Word.LittleEndianList.
Import ListNotations.
Local Open Scope Z_scope.

(** ** Machine integers *)

Definition u32 (z : Z) : Z := z mod 2 ^ 32.
Definition u64 (z : Z) : Z := z mod 2 ^ 64.

(** Conversion to [int] (the entries of [deleted_blocks_array]). *)
Definition to_int (z : Z) : Z := (z + 2 ^ 31) mod 2 ^ 32 - 2 ^ 31.

(** Conversion to [long] (the offsets given to [fseek] and [ftruncate]). *)
Definition to_long (z : Z) : Z := (z + 2 ^ 63) mod 2 ^ 64 - 2 ^ 63.

Definition BLOCK_SIZE : Z := 1024.

(** ** hash_function *)

Module Hash.

Definition prime2 : Z := 37.

(** The body of the [for] loop, applied to the bytes from [data[i]] on;
    [hash] and [prime] are the two locals the loop updates. *)
Fixpoint hash_loop (data : list byte) (hash prime : Z) : Z :=
  match data with
  | [] => hash
  | b :: rest =>
      let hash' := Z.lxor (u32 (hash * prime)) (u32 (byte.unsigned b * prime2)) in
      let prime' := u32 (prime * prime2) mod 65521 in
      hash_loop rest hash' prime'
  end.

Definition hash_function (data : list byte) : Z := hash_loop data 0 31.

(** The definition the specification gives in words: one step takes the
    pair [(h, p1)] to [((h * p1) XOR (b * p2)) mod 2^32] and
    [(p1 * p2) mod 65521], with [p2 = 37] throughout. *)
Definition reference_step (st : Z * Z) (b : byte) : Z * Z :=
  (Z.lxor (fst st * snd st) (byte.unsigned b * 37) mod 2 ^ 32,
   (snd st * 37) mod 65521).

Definition hash_reference (data : list byte) : Z :=
  fst (fold_left reference_step data (0, 31)).

End Hash.

Import Hash.

(** ** Streams *)

Record FILE := mkFILE {
  f_bytes : list byte;   (* the bytes of the file *)
  f_pos : Z              (* the position of the stream *)
}.

Definition set_pos (f : FILE) (p : Z) : FILE := mkFILE (f_bytes f) p.
Definition set_bytes (f : FILE) (bs : list byte) : FILE := mkFILE bs (f_pos f).

(** [fseek(f, offset, SEEK_SET)]: a negative offset is refused and the
    position stays. *)
Definition fseek_set (f : FILE) (offset : Z) : FILE :=
  if offset <? 0 then f else set_pos f offset.

(** [fseek(f, offset, SEEK_CUR)]. *)
Definition fseek_cur (f : FILE) (offset : Z) : FILE :=
  if f_pos f + offset <? 0 then f else set_pos f (f_pos f + offset).

(** [fseek(f, 0, SEEK_END)]. *)
Definition fseek_end (f : FILE) : FILE := set_pos f (Z.of_nat (List.length (f_bytes f))).

Definition ftell (f : FILE) : Z := f_pos f.

(** [fread(buf, 1, n, f)]: the bytes from the position on, at most [n]. *)
Definition fread_bytes (n : Z) (f : FILE) : list byte * FILE :=
  let got := firstn (Z.to_nat n) (skipn (Z.to_nat (f_pos f)) (f_bytes f)) in
  (got, set_pos f (f_pos f + Z.of_nat (List.length got))).

(** [fread(&x, size, 1, f)] into an object that holds [old]: the bytes read
    replace the first bytes of the object. *)
Definition fread_obj (size : nat) (old : Z) (f : FILE) : Z * FILE :=
  let (got, f') := fread_bytes (Z.of_nat size) f in
  (le_combine (got ++ skipn (List.length got) (le_split size old)), f').

(** The first [n] bytes of a file, with zero bytes after its end. *)
Definition resize (n : nat) (bs : list byte) : list byte :=
  firstn n bs ++ repeat Byte.x00 (n - List.length bs).

(** [fwrite(buf, 1, n, f)]: the bytes go to the position, over what is
    there; a gap between the end of the file and the position is filled
    with zero bytes. Writing nothing changes nothing. *)
Definition fwrite (bs : list byte) (f : FILE) : FILE :=
  match bs with
  | [] => f
  | _ =>
      let p := Z.to_nat (f_pos f) in
      mkFILE (resize p (f_bytes f) ++ bs ++ skipn (p + List.length bs) (f_bytes f))
             (f_pos f + Z.of_nat (List.length bs))
  end.

(** [ftruncate(fileno(f), len)]: the file is cut or extended with zero bytes
    to [len] bytes; a negative [len] is refused. The position stays. The
    call works on the descriptor: a buffer that stdio holds for the stream
    is not brought up to date, which the embedding leaves out (see the
    conventions above). *)
Definition ftruncate (f : FILE) (len : Z) : FILE :=
  if len <? 0 then f else set_bytes f (resize (Z.to_nat len) (f_bytes f)).

(** ** The database handle *)

(** [struct hdb]. The fields [deleted_blocks_array] and
    [deleted_blocks_array_size] are one list: the first
    [deleted_blocks_array_size] entries of the array. *)
Record hdb := mkHdb {
  hash_file : FILE;
  data_file : FILE;
  deleted_blocks : FILE;
  deleted_blocks_array : list Z
}.

Definition set_hash_file (db : hdb) (f : FILE) : hdb :=
  mkHdb f (data_file db) (deleted_blocks db) (deleted_blocks_array db).
Definition set_data_file (db : hdb) (f : FILE) : hdb :=
  mkHdb (hash_file db) f (deleted_blocks db) (deleted_blocks_array db).
Definition set_deleted_blocks (db : hdb) (f : FILE) : hdb :=
  mkHdb (hash_file db) (data_file db) f (deleted_blocks_array db).

(** What the uninitialised locals of one call hold when it starts, and what
    one run of [db_delete] takes from outside the embedding: in the run in
    which the first [fseek] on the data file is refused, the bytes that are
    written come from the block that [malloc] returns, which [fread] fills
    in part only, and [ftruncate] cuts the file behind the buffer of stdio.
    [l_refused] is the data file that this run leaves, [None] where the run
    does not return ([malloc] returns a null pointer and the program stops
    on it). *)
Record locals := mkLocals {
  l_stored_hash : Z;     (* uint32_t stored_hash *)
  l_position : Z;        (* uint64_t position *)
  l_length : Z;          (* uint64_t length *)
  l_temp_hash : Z;       (* uint32_t temp_hash *)
  l_temp_position : Z;   (* uint64_t temp_position *)
  l_temp_length : Z;     (* uint64_t temp_length *)
  l_refused : option FILE
}.

(** ** db_get *)

(** What [db_get] hands back: the return value, the bytes it stored at
    [value] (from its first byte on) and what it stored at [value_length],
    if anything. *)
Record get_result := mkGet {
  g_ret : Z;
  g_value : list byte;
  g_value_length : option Z
}.

(** The [while (total_read < length)] loop. [fuel] bounds the number of
    rounds; [value] collects the bytes stored so far. *)
Fixpoint read_loop (fuel : nat) (length total_read : Z) (value : list byte)
    (data_file : FILE) : list byte * FILE :=
  match fuel with
  | O => (value, data_file)
  | S fuel' =>
      if total_read <? length then
        let to_read :=
          if length - total_read >? BLOCK_SIZE then BLOCK_SIZE
          else length - total_read in
        let (got, data_file') := fread_bytes to_read data_file in
        read_loop fuel' length (total_read + to_read) (value ++ got) data_file'
      else (value, data_file)
  end.

(** Rounds that the loop needs for [length] bytes. *)
Definition rounds (length : Z) : nat := Z.to_nat (length / BLOCK_SIZE + 1).

Definition db_get (u : locals) (db : hdb) (key : list byte) : get_result * hdb :=
  let hash := hash_function key in
  let hf := fseek_set (hash_file db) (hash mod 128 * 4) in
  let (stored_hash, hf) := fread_obj 4 (l_stored_hash u) hf in
  if negb (stored_hash =? hash) then (mkGet (-1) [] None, set_hash_file db hf)
  else
    let hf := fseek_set hf (hash mod 128 * 8 * 2) in
    let (position, hf) := fread_obj 8 (l_position u) hf in
    let (length, hf) := fread_obj 8 (l_length u) hf in
    let df := fseek_set (data_file db) (to_long position) in
    let (value, df) := read_loop (rounds length) length 0 [] df in
    (mkGet 0 value (Some length), set_data_file (set_hash_file db hf) df).

(** ** db_delete *)

(** The [for (int i = 0; i < 128; ++i)] loop that rewrites the positions in
    the directory; [n] counts the rounds that remain. The three temporaries
    live in the same place in every round. *)
Fixpoint update_loop (n : nat) (position length : Z)
    (temp_hash temp_position temp_length : Z) (hf : FILE) : FILE :=
  match n with
  | O => hf
  | S n' =>
      let (temp_hash, hf) := fread_obj 4 temp_hash hf in
      if temp_hash =? 0 then
        update_loop n' position length temp_hash temp_position temp_length hf
      else
        let (temp_position, hf) := fread_obj 8 temp_position hf in
        let (temp_length, hf) := fread_obj 8 temp_length hf in
        if temp_position >? position then
          let temp_position := u64 (temp_position - length) in
          let hf := fseek_cur hf (to_long (u64 (-2 * 8))) in
          let hf := fwrite (le_split 8 temp_position) hf in
          let hf := fseek_cur hf 8 in
          update_loop n' position length temp_hash temp_position temp_length hf
        else
          update_loop n' position length temp_hash temp_position temp_length hf
  end.

(** Where the first [fseek] on the data file is refused ([position + length]
    is not a [long] offset) the stream stays where it is and
    [remaining_size] is not zero. The offset has been pushed by then, and
    the loop over the directory runs as in the other run; what the
    statements between them leave of the data file is [l_refused u]. The
    result is [None] only where that run does not return. *)
Definition db_delete (u : locals) (db : hdb) (key : list byte) : option (Z * hdb) :=
  let hash := hash_function key in
  let hf := fseek_set (hash_file db) (hash mod 128 * 4) in
  let (stored_hash, hf) := fread_obj 4 (l_stored_hash u) hf in
  if negb (stored_hash =? hash) then Some (-1, set_hash_file db hf)
  else
    let hf := fseek_set hf (hash mod 128 * 4) in
    let hf := fwrite (le_split 4 0) hf in
    let hf := fseek_set hf (hash mod 128 * 8 * 2) in
    let (position, hf) := fread_obj 8 (l_position u) hf in
    let (length, hf) := fread_obj 8 (l_length u) hf in
    let array := deleted_blocks_array db ++ [to_int position] in
    let df := fseek_set (data_file db) (to_long (u64 (position + length))) in
    let remaining_size := u64 (ftell df - u64 (position + length)) in
    if negb (remaining_size =? 0) then
      match l_refused u with
      | None => None
      | Some df =>
          let hf := fseek_set hf 0 in
          let hf := update_loop 128 position length
                      (l_temp_hash u) (l_temp_position u) (l_temp_length u) hf in
          Some (0, mkHdb hf df (deleted_blocks db) array)
      end
    else
      let (buffer, df) := fread_bytes remaining_size df in
      let df := fseek_set df (to_long position) in
      let df := fwrite buffer df in
      let df := ftruncate df (to_long (u64 (position + remaining_size))) in
      let hf := fseek_set hf 0 in
      let hf := update_loop 128 position length
                  (l_temp_hash u) (l_temp_position u) (l_temp_length u) hf in
      Some (0, mkHdb hf df (deleted_blocks db) array).

(** ** db_put *)

(** [u] holds the locals of [db_put] itself, [ud] those of the call of
    [db_delete] it may make; what that call returns is not looked at. The
    result is [None] only where that call does not return. *)
Definition db_put (u ud : locals) (db : hdb) (key value : list byte)
    : option (Z * hdb) :=
  let hash := hash_function key in
  let hf := fseek_set (hash_file db) (hash mod 128 * 4) in
  let (stored_hash, hf) := fread_obj 4 (l_stored_hash u) hf in
  let db := set_hash_file db hf in
  match (if stored_hash =? hash then option_map snd (db_delete ud db key)
         else Some db) with
  | None => None
  | Some db =>
      let hf := fseek_set (hash_file db) (hash mod 128 * 4) in
      let hf := fwrite (le_split 4 hash) hf in
      let '(position, array, df) :=
        match rev (deleted_blocks_array db) with
        | x :: rest => (u64 x, rev rest, data_file db)
        | [] =>
            let df := fseek_end (data_file db) in
            (u64 (ftell df), [], df)
        end in
      let df := fwrite value df in
      let hf := fseek_set hf (hash mod 128 * 8 * 2) in
      let hf := fwrite (le_split 8 position) hf in
      let hf := fwrite (le_split 8 (Z.of_nat (List.length value))) hf in
      Some (0, mkHdb hf df (deleted_blocks db) array)
  end.

(** ** db_open and db_close *)

(** The three paths between two sessions: the bytes of the file at each
    path, or [None] where there is no file. The paths are three different
    files. *)
Record disk := mkDisk {
  hash_filename : option (list byte);
  data_filename : option (list byte);
  deleted_blocks_filename : option (list byte)
}.

(** [fopen(path, "rb+")] and, where there is no file, [fopen(path, "wb+")],
    which creates an empty one. *)
Definition fopen (file : option (list byte)) : FILE :=
  match file with
  | Some bs => mkFILE bs 0
  | None => mkFILE [] 0
  end.

(** [n] objects of type [int] out of the bytes read. *)
Fixpoint ints_of_bytes (n : nat) (bs : list byte) : list Z :=
  match n with
  | O => []
  | S n' => to_int (le_combine (firstn 4 bs)) :: ints_of_bytes n' (skipn 4 bs)
  end.

Definition bytes_of_ints (a : list Z) : list byte :=
  flat_map (fun x => le_split 4 x) a.

(** The size is the length of the file over [sizeof(int)]; it is taken to
    fit an [int], which it does for a file of less than 2^33 bytes. *)
Definition decode_deleted_blocks_array (db : hdb) : hdb :=
  let f := fseek_end (deleted_blocks db) in
  let size := ftell f / 4 in
  let f := fseek_set f 0 in
  let (bs, f) := fread_bytes (size * 4) f in
  mkHdb (hash_file db) (data_file db) f (ints_of_bytes (Z.to_nat size) bs).

Definition encode_deleted_blocks_array (db : hdb) : hdb :=
  let f := fseek_set (deleted_blocks db) 0 in
  let f := fwrite (bytes_of_ints (deleted_blocks_array db)) f in
  set_deleted_blocks db f.

Definition db_open (d : disk) : hdb :=
  decode_deleted_blocks_array
    (mkHdb (fopen (hash_filename d)) (fopen (data_filename d))
           (fopen (deleted_blocks_filename d)) []).

(** [db_close] encodes the array when its pointer is not null; with a null
    pointer the size is 0 and encoding writes nothing, so the test is left
    out. What remains of the session is what the three files hold. *)
Definition db_close (db : hdb) : disk :=
  let db := encode_deleted_blocks_array db in
  mkDisk (Some (f_bytes (hash_file db))) (Some (f_bytes (data_file db)))
         (Some (f_bytes (deleted_blocks db))).

(** A first session on three paths where there is no file yet. *)
Definition fresh_disk : disk := mkDisk None None None.
Definition fresh_db : hdb := db_open fresh_disk.

(** ** Notions used in the statements *)

(** What [db_put], [db_get] and [db_delete] find in [stored_hash] after
    their first [fread]. *)
Definition stored_hash (u : locals) (db : hdb) (key : list byte) : Z :=
  fst (fread_obj 4 (l_stored_hash u)
         (fseek_set (hash_file db) (hash_function key mod 128 * 4))).

(** The test [stored_hash == hash] that the three functions make. *)
Definition located (u : locals) (db : hdb) (key : list byte) : bool :=
  stored_hash u db key =? hash_function key.

(** The position that [db_get] reads in the directory for a key. *)
Definition recorded_position (u : locals) (db : hdb) (key : list byte) : Z :=
  fst (fread_obj 8 (l_position u)
         (fseek_set (hash_file db) (hash_function key mod 128 * 8 * 2))).

(** The position that [db_delete] reads for a key, after it has cleared the
    hash of the key. *)
Definition freed_position (u : locals) (db : hdb) (key : list byte) : Z :=
  fst (fread_obj 8 (l_position u)
         (fseek_set
            (fwrite (le_split 4 0)
               (fseek_set (hash_file db) (hash_function key mod 128 * 4)))
            (hash_function key mod 128 * 8 * 2))).

(** The statements of [db_put] that follow the call of [db_delete]: the hash
    is written, the position is taken from the array of deleted blocks or
    from the end of the data file, the value is written and the position
    and the length are recorded. [db_put] above has them in full; they are
    named here for the lemmas about them. *)
Definition put_record (db : hdb) (key value : list byte) : hdb :=
  let hash := hash_function key in
  let hf := fseek_set (hash_file db) (hash mod 128 * 4) in
  let hf := fwrite (le_split 4 hash) hf in
  let '(position, array, df) :=
    match rev (deleted_blocks_array db) with
    | x :: rest => (u64 x, rev rest, data_file db)
    | [] =>
        let df := fseek_end (data_file db) in
        (u64 (ftell df), [], df)
    end in
  let df := fwrite value df in
  let hf := fseek_set hf (hash mod 128 * 8 * 2) in
  let hf := fwrite (le_split 8 position) hf in
  let hf := fwrite (le_split 8 (Z.of_nat (List.length value))) hf in
  mkHdb hf df (deleted_blocks db) array.

(** Deletes one after the other, each of which returns 0; the result has
    the offsets that were freed, in the order of the deletes. *)
Fixpoint delete_all (ks : list (locals * list byte)) (db : hdb)
    : option (list Z * hdb) :=
  match ks with
  | [] => Some ([], db)
  | (u, key) :: rest =>
      match db_delete u db key with
      | Some (0, db') =>
          match delete_all rest db' with
          | Some (freed, db'') =>
              Some (to_int (freed_position u db key) :: freed, db'')
          | None => None
          end
      | _ => None
      end
  end.

(** The array of deleted blocks from which [db_put] pops: the array of the
    handle, after the offset of the key itself where [db_put] deletes the
    key first ([db_put] and the [db_delete] it calls both locate it). *)
Definition array_at_pop (u ud : locals) (db : hdb) (key : list byte) : list Z :=
  if located u db key && located ud db key
  then deleted_blocks_array db ++ [to_int (freed_position ud db key)]
  else deleted_blocks_array db.

(** ** Sessions used in the examples *)

(** Locals that start as zero bytes. No session below takes the run of
    [db_delete] that reads [l_refused]. *)
Definition zeroed : locals := mkLocals 0 0 0 0 0 0 None.

(** The bytes of a C string, without the zero byte that ends it. *)
Definition str (s : string) : list byte := list_byte_of_string s.

(** The handle a call leaves. *)
Definition handle (r : option (Z * hdb)) : hdb :=
  match r with
  | Some (_, db) => db
  | None => fresh_db
  end.

(** One call after the other, with locals that start as zero bytes. *)
Definition then_put (key value : list byte) (r : option (Z * hdb))
    : option (Z * hdb) :=
  match r with
  | Some (_, db) => db_put zeroed zeroed db key value
  | None => None
  end.

Definition then_delete (key : list byte) (r : option (Z * hdb))
    : option (Z * hdb) :=
  match r with
  | Some (_, db) => db_delete zeroed db key
  | None => None
  end.

(** [db_close] and then [db_open] on the same three paths. *)
Definition then_reopen (r : option (Z * hdb)) : option (Z * hdb) :=
  match r with
  | Some (_, db) => Some (0, db_open (db_close db))
  | None => None
  end.

Definition opened : option (Z * hdb) := Some (0, fresh_db).

(** [db_put("a", "AA")] in a first session. *)
Definition session_a : option (Z * hdb) :=
  then_put (str "a") (str "AA") opened.

(** [db_put("ki", "v")] in a first session; the slot of ["ki"] is 0. *)
Definition session_ki : option (Z * hdb) :=
  then_put (str "ki") (str "v") opened.

(** [db_put("a", "AAAA")], [db_put("h", "BB")], [db_put("b", "C")] and then
    [db_delete("a")]. *)
Definition session_three : option (Z * hdb) :=
  then_put (str "b") (str "C")
    (then_put (str "h") (str "BB")
       (then_put (str "a") (str "AAAA") opened)).

Definition session_three_deleted : option (Z * hdb) :=
  then_delete (str "a") session_three.

(** After them, a put that reuses the freed offset. *)
Definition session_rewritten : option (Z * hdb) :=
  then_put (str "key1") (str "XY") session_three_deleted.

(** The calls of [test_deleted_blocks_array]: two puts and two deletes. *)
Definition session_test : option (Z * hdb) :=
  then_put (str "key2") (str "value2")
    (then_put (str "key1") (str "value1") opened).

Definition test_deletes : list (locals * list byte) :=
  [(zeroed, str "key1"); (zeroed, str "key2")].

(** Two puts and a delete of the second key, then a second session on the
    same paths, and a put in it. *)
Definition session_reopened : option (Z * hdb) :=
  then_reopen
    (then_delete (str "b")
       (then_put (str "b") (str "BB")
          (then_put (str "a") (str "AA") opened))).

Definition session_reused : option (Z * hdb) :=
  then_put (str "key1") (str "CC") session_reopened.

(** [db_put("h", "BB")] and [db_put("-", v)] in a first session, with a
    value [v] of 518 bytes; the slot of ["h"] is 8 and the slot of ["-"]
    is 1. *)
Definition session_dash : option (Z * hdb) :=
  then_put (str "-") (repeat Byte.x41 518)
    (then_put (str "h") (str "BB") opened).

(** After the three puts of [session_three], [db_delete] of the key of one
    zero byte, which was not put. *)
Definition session_three_zero : option (Z * hdb) :=
  then_delete [Byte.x00] session_three.

(** ** Notions used in the further properties *)

(** The length that [db_get] reads in the directory for a key, after the
    position. *)
Definition recorded_length (u : locals) (db : hdb) (key : list byte) : Z :=
  fst (fread_obj 8 (l_length u)
         (snd (fread_obj 8 (l_position u)
                 (fseek_set (hash_file db) (hash_function key mod 128 * 8 * 2))))).

(** The position [db_put] takes for the value: the last entry of the array
    of deleted blocks, or the end of the data file. *)
Definition put_position (db : hdb) : Z :=
  match rev (deleted_blocks_array db) with
  | x :: _ => u64 x
  | [] => u64 (Z.of_nat (List.length (f_bytes (data_file db))))
  end.

(** The values of an [int]. *)
Definition is_int (x : Z) : Prop := - 2 ^ 31 <= x < 2 ^ 31.

(** The slot of a key in the directory. *)
Definition slot (key : list byte) : Z := hash_function key mod 128.

(** The [n] bytes of a file from byte [p] on. *)
Definition slice (p n : Z) (bs : list byte) : list byte :=
  firstn (Z.to_nat n) (skipn (Z.to_nat p) bs).


(** The length that [db_delete] reads for a key, after the position. *)
Definition freed_length (u : locals) (db : hdb) (key : list byte) : Z :=
  fst (fread_obj 8 (l_length u)
         (snd (fread_obj 8 (l_position u)
                 (fseek_set
                    (fwrite (le_split 4 0)
                       (fseek_set (hash_file db) (hash_function key mod 128 * 4)))
                    (hash_function key mod 128 * 8 * 2))))).

(** * Properties *)

(** ** The hash function *)

Lemma lxor_mod_pow2 (n a b : Z) :
  0 <= n -> Z.lxor (a mod 2 ^ n) (b mod 2 ^ n) = Z.lxor a b mod 2 ^ n.
Proof.
  intros Hn. rewrite <- !Z.land_ones by assumption.
  apply Z.bits_inj'. intros i Hi.
  rewrite Z.lxor_spec, !Z.land_spec, Z.lxor_spec.
  destruct (Z.testbit a i), (Z.testbit b i), (Z.testbit (Z.ones n) i); reflexivity.
Qed.

Lemma hash_loop_reference (data : list byte) :
  forall hash prime, 0 <= prime < 65521 ->
    hash_loop data hash prime = fst (fold_left reference_step data (hash, prime)).
Proof.
  induction data as [|b rest IH]; intros hash prime Hp; simpl.
  - reflexivity.
  - unfold reference_step at 2; simpl fst; simpl snd.
    assert (Hsmall : u32 (prime * prime2) = prime * 37).
    { unfold u32, prime2. apply Z.mod_small. lia. }
    rewrite Hsmall. unfold u32, prime2.
    rewrite (lxor_mod_pow2 32) by lia.
    apply IH. apply Z.mod_pos_bound. lia.
Qed.

(** C5. For every sequence of bytes, [hash_function] is the hash of the
    specification: [h] starts at 0, every byte [b] in order takes [h] to
    [(h * p1) XOR (b * 37)] in 32-bit arithmetic and then [p1] to
    [(p1 * 37) mod 65521], with [p1 = 31] at the start. *)
Theorem hash_function_is_reference (data : list byte) :
  hash_function data = hash_reference data.
Proof.
  unfold hash_function, hash_reference. apply hash_loop_reference. lia.
Qed.

(** ** Streams: what the calls keep *)

Lemma fseek_set_bytes (f : FILE) (o : Z) : f_bytes (fseek_set f o) = f_bytes f.
Proof. unfold fseek_set. destruct (o <? 0); reflexivity. Qed.

Lemma fseek_set_nonneg (f : FILE) (o : Z) :
  0 <= o -> fseek_set f o = mkFILE (f_bytes f) o.
Proof.
  intros Ho. unfold fseek_set. destruct (Z.ltb_spec o 0); [lia | reflexivity].
Qed.

Lemma fseek_set_ext (f g : FILE) (o : Z) :
  0 <= o -> f_bytes f = f_bytes g -> fseek_set f o = fseek_set g o.
Proof. intros Ho Hb. rewrite !fseek_set_nonneg by assumption. now rewrite Hb. Qed.

Lemma fread_obj_bytes (size : nat) (old : Z) (f : FILE) :
  f_bytes (snd (fread_obj size old f)) = f_bytes f.
Proof. reflexivity. Qed.

Lemma read_loop_bytes (fuel : nat) :
  forall length total_read value f,
    f_bytes (snd (read_loop fuel length total_read value f)) = f_bytes f.
Proof.
  induction fuel as [|fuel IH]; intros length total_read value f; simpl.
  - reflexivity.
  - destruct (total_read <? length); [|reflexivity].
    unfold fread_bytes. rewrite IH. reflexivity.
Qed.

Lemma slot_offset4_nonneg (h : Z) : 0 <= h mod 128 * 4.
Proof. pose proof (Z.mod_pos_bound h 128). lia. Qed.

Lemma slot_offset16_nonneg (h : Z) : 0 <= h mod 128 * 8 * 2.
Proof. pose proof (Z.mod_pos_bound h 128). lia. Qed.

(** ** db_get *)

(** The three functions branch on [located]. *)
Lemma db_get_unfold (u : locals) (db : hdb) (key : list byte) :
  fst (db_get u db key) =
    if located u db key then
      let position := recorded_position u db key in
      let hf := snd (fread_obj 8 (l_position u)
                       (fseek_set (hash_file db) (hash_function key mod 128 * 8 * 2))) in
      let length := fst (fread_obj 8 (l_length u) hf) in
      let df := fseek_set (data_file db) (to_long position) in
      mkGet 0 (fst (read_loop (rounds length) length 0 [] df)) (Some length)
    else mkGet (-1) [] None.
Proof.
  unfold db_get, located, stored_hash, recorded_position.
  destruct (fread_obj 4 _ _) as [sh hf] eqn:E1. cbn [fst].
  destruct (sh =? hash_function key); cbn [negb]; [|reflexivity].
  assert (Hhf : f_bytes hf = f_bytes (hash_file db)).
  { change hf with (snd (sh, hf)). rewrite <- E1.
    rewrite fread_obj_bytes. apply fseek_set_bytes. }
  rewrite (fseek_set_ext hf (hash_file db))
    by (apply slot_offset16_nonneg || exact Hhf).
  cbv zeta.
  destruct (fread_obj 8 (l_position u) _) as [position hf1]. cbn [fst snd].
  destruct (fread_obj 8 (l_length u) hf1) as [len hf2]. cbn [fst].
  destruct (read_loop _ _ _ _ _) as [value df]. reflexivity.
Qed.

Lemma firstn_add_skipn {A : Type} (n1 n2 : nat) :
  forall l : list A,
    firstn (n1 + n2) l
    = firstn n1 l ++ firstn n2 (skipn (List.length (firstn n1 l)) l).
Proof.
  induction n1 as [|n1 IH]; intros l.
  - reflexivity.
  - destruct l as [|a l].
    + simpl. now rewrite firstn_nil.
    + simpl. now rewrite IH.
Qed.

(** Enough rounds: the loop ends because [total_read] reaches [length], and
    what it stores is what one read of the rest would store. *)
Lemma read_loop_enough (fuel : nat) :
  forall length total_read value f,
    0 <= f_pos f ->
    length - total_read <= Z.of_nat fuel * BLOCK_SIZE ->
    fst (read_loop fuel length total_read value f)
    = value ++ fst (fread_bytes (length - total_read) f).
Proof.
  unfold BLOCK_SIZE.
  induction fuel as [|fuel IH]; intros length total_read value f Hpos Hfuel.
  - simpl. unfold fread_bytes. simpl fst.
    replace (Z.to_nat (length - total_read)) with 0%nat by lia.
    simpl. now rewrite app_nil_r.
  - cbn [read_loop]. destruct (Z.ltb_spec total_read length) as [Hlt|Hge].
    + set (to_read := if length - total_read >? BLOCK_SIZE then BLOCK_SIZE
                      else length - total_read).
      assert (Hto : 0 < to_read <= 1024 /\ to_read <= length - total_read
                    /\ length - (total_read + to_read) <= Z.of_nat fuel * 1024).
      { unfold to_read, BLOCK_SIZE.
        destruct (Z.gtb_spec (length - total_read) 1024); lia. }
      unfold fread_bytes at 1. cbv zeta.
      rewrite IH; cbn [f_pos set_pos]; try lia.
      unfold fread_bytes. cbn [fst f_pos f_bytes set_pos].
      rewrite <- app_assoc. f_equal.
      replace (Z.to_nat (length - total_read))
        with (Z.to_nat to_read + Z.to_nat (length - (total_read + to_read)))%nat
        by lia.
      rewrite firstn_add_skipn. f_equal. f_equal.
      rewrite Z2Nat.inj_add by lia. rewrite Nat2Z.id.
      now rewrite skipn_skipn, Nat.add_comm.
    + unfold fread_bytes. simpl fst.
      replace (Z.to_nat (length - total_read)) with 0%nat by lia.
      simpl. now rewrite app_nil_r.
Qed.

Lemma rounds_enough (length : Z) : length <= Z.of_nat (rounds length) * BLOCK_SIZE.
Proof.
  unfold rounds, BLOCK_SIZE.
  destruct (Z.le_gt_cases 0 length) as [Hnn|Hneg].
  - pose proof (Z.div_pos length 1024 Hnn ltac:(lia)).
    rewrite Z2Nat.id by lia.
    pose proof (Z.mod_pos_bound length 1024 ltac:(lia)).
    pose proof (Z.div_mod length 1024 ltac:(lia)). lia.
  - lia.
Qed.

(** C10. [db_get] changes no file and no entry of the free list: whatever
    the key and the state, and whether the key is found or not, the bytes
    of the directory file and of the data file, the file of deleted blocks
    and the array of deleted blocks are afterwards what they were. *)
Theorem db_get_changes_nothing (u : locals) (db : hdb) (key : list byte) :
  f_bytes (hash_file (snd (db_get u db key))) = f_bytes (hash_file db)
  /\ f_bytes (data_file (snd (db_get u db key))) = f_bytes (data_file db)
  /\ deleted_blocks (snd (db_get u db key)) = deleted_blocks db
  /\ deleted_blocks_array (snd (db_get u db key)) = deleted_blocks_array db.
Proof.
  unfold db_get.
  destruct (fread_obj 4 _ _) as [sh hf] eqn:E1.
  assert (Hhf : f_bytes hf = f_bytes (hash_file db)).
  { change hf with (snd (sh, hf)). rewrite <- E1.
    rewrite fread_obj_bytes. apply fseek_set_bytes. }
  destruct (sh =? hash_function key); cbn [negb].
  - destruct (fread_obj 8 (l_position u) _) as [position hf1] eqn:E2.
    destruct (fread_obj 8 (l_length u) hf1) as [len hf2] eqn:E3.
    destruct (read_loop _ _ _ _ _) as [value df] eqn:E4.
    cbn [snd hash_file data_file deleted_blocks deleted_blocks_array
         set_data_file set_hash_file].
    repeat split.
    + change hf2 with (snd (len, hf2)). rewrite <- E3, fread_obj_bytes.
      change hf1 with (snd (position, hf1)). rewrite <- E2, fread_obj_bytes.
      rewrite fseek_set_bytes. exact Hhf.
    + change df with (snd (value, df)). rewrite <- E4, read_loop_bytes.
      apply fseek_set_bytes.
  - cbn [snd hash_file data_file deleted_blocks deleted_blocks_array set_hash_file].
    repeat split. exact Hhf.
Qed.

(** An object read with [fread] holds a value of its width. *)
Lemma fread_obj_range (size : nat) (old : Z) (f : FILE) :
  0 <= fst (fread_obj size old f) < 2 ^ (8 * Z.of_nat size).
Proof.
  unfold fread_obj, fread_bytes. cbn [fst].
  set (got := firstn _ _).
  assert (Hgot : (List.length got <= size)%nat).
  { unfold got. rewrite length_firstn. lia. }
  pose proof (le_combine_bound (got ++ skipn (List.length got) (le_split size old))) as Hb.
  rewrite length_app, length_skipn, length_le_split in Hb.
  replace (List.length got + (size - List.length got))%nat with size in Hb by lia.
  exact Hb.
Qed.

Lemma to_long_small (z : Z) : 0 <= z < 2 ^ 63 -> to_long z = z.
Proof.
  intros Hz. unfold to_long. rewrite Z.mod_small; lia.
Qed.

(** Where [fseek] accepts [position + length], [remaining_size] is 0. *)
Lemma remaining_size_0 (df : FILE) (x : Z) :
  0 <= x < 2 ^ 63 -> u64 (ftell (fseek_set df (to_long x)) - x) = 0.
Proof.
  intros Hx. rewrite to_long_small by lia.
  unfold ftell. rewrite fseek_set_nonneg by lia. cbn [f_pos].
  now rewrite Z.sub_diag.
Qed.

(** [db_get] returns -1 and stores nothing for a key whose slot of the
    directory does not hold the hash of the key. *)
Lemma db_get_not_located (u : locals) (db : hdb) (key : list byte) :
  located u db key = false ->
  fst (db_get u db key) = mkGet (-1) [] None.
Proof.
  intros Hloc. rewrite db_get_unfold, Hloc. reflexivity.
Qed.

(** ** db_delete *)

Lemma db_delete_not_located (u : locals) (db : hdb) (key : list byte) :
  located u db key = false ->
  exists db',
    db_delete u db key = Some (-1, db')
    /\ f_bytes (hash_file db') = f_bytes (hash_file db)
    /\ data_file db' = data_file db
    /\ deleted_blocks db' = deleted_blocks db
    /\ deleted_blocks_array db' = deleted_blocks_array db.
Proof.
  unfold located, stored_hash, db_delete. intros Hloc.
  destruct (fread_obj 4 _ _) as [sh hf] eqn:E1. cbn [fst] in Hloc.
  rewrite Hloc. cbn [negb].
  eexists. split; [reflexivity|].
  cbn [hash_file data_file deleted_blocks deleted_blocks_array set_hash_file].
  repeat split.
  change hf with (snd (sh, hf)). rewrite <- E1, fread_obj_bytes.
  apply fseek_set_bytes.
Qed.

(** ** db_close and db_open *)

Lemma located_bytes (u : locals) (db1 db2 : hdb) (key : list byte) :
  f_bytes (hash_file db1) = f_bytes (hash_file db2) ->
  located u db1 key = located u db2 key.
Proof.
  intros Hb. unfold located, stored_hash.
  now rewrite (fseek_set_ext (hash_file db1) (hash_file db2))
    by (apply slot_offset4_nonneg || exact Hb).
Qed.

(** Closing the database and opening it again on the same three paths
    gives a database in which [db_get] returns for a key what it returned
    before the close (the same status, the same bytes and the same
    length), where the offset recorded for the key is one that [fseek]
    accepts (below 2^63) and the value recorded lies within the data
    file. *)
Lemma reopen_same_get (u : locals) (db : hdb) (key : list byte) :
  (located u db key = true ->
   recorded_position u db key < 2 ^ 63
   /\ recorded_position u db key + recorded_length u db key
      <= Z.of_nat (List.length (f_bytes (data_file db)))) ->
  fst (db_get u (db_open (db_close db)) key) = fst (db_get u db key).
Proof.
  intros Hin. rewrite !db_get_unfold.
  rewrite (located_bytes u (db_open (db_close db)) db) by reflexivity.
  destruct (located u db key) eqn:Hloc; [|reflexivity].
  assert (Hseek : recorded_position u db key < 2 ^ 63) by apply (Hin eq_refl).
  clear Hin.
  assert (Hrec : recorded_position u (db_open (db_close db)) key
                 = recorded_position u db key).
  { unfold recorded_position.
    now rewrite (fseek_set_ext (hash_file (db_open (db_close db))) (hash_file db))
      by (apply slot_offset16_nonneg || reflexivity). }
  cbv zeta. rewrite Hrec.
  rewrite (fseek_set_ext (hash_file (db_open (db_close db))) (hash_file db))
    by (apply slot_offset16_nonneg || reflexivity).
  rewrite (fseek_set_ext (data_file (db_open (db_close db))) (data_file db)).
  - reflexivity.
  - pose proof (fread_obj_range 8 (l_position u)
        (fseek_set (hash_file db) (hash_function key mod 128 * 8 * 2))) as Hr.
    fold (recorded_position u db key) in Hr.
    rewrite to_long_small; lia.
  - reflexivity.
Qed.

(** ** Streams: writing and reading back *)

Lemma skipn_app_exact {A : Type} (n : nat) (l1 l2 : list A) :
  List.length l1 = n -> skipn n (l1 ++ l2) = l2.
Proof.
  intros <-. induction l1 as [|a l1 IH]; [reflexivity|exact IH].
Qed.

Lemma firstn_app_exact {A : Type} (n : nat) (l1 l2 : list A) :
  List.length l1 = n -> firstn n (l1 ++ l2) = l1.
Proof.
  intros <-. induction l1 as [|a l1 IH]; [reflexivity|].
  cbn [List.length app firstn]. now rewrite IH.
Qed.

Lemma length_resize (n : nat) (bs : list byte) : List.length (resize n bs) = n.
Proof. unfold resize. rewrite length_app, length_firstn, repeat_length. lia. Qed.

Lemma resize_app_exact (n : nat) (l1 l2 : list byte) :
  List.length l1 = n -> resize n (l1 ++ l2) = l1.
Proof.
  intros Hn. unfold resize. rewrite firstn_app_exact by assumption.
  rewrite length_app.
  replace (n - (List.length l1 + List.length l2))%nat with 0%nat by lia.
  apply app_nil_r.
Qed.

Lemma fwrite_nonempty (bs : list byte) (f : FILE) :
  bs <> [] ->
  fwrite bs f
  = mkFILE (resize (Z.to_nat (f_pos f)) (f_bytes f) ++ bs
              ++ skipn (Z.to_nat (f_pos f) + List.length bs) (f_bytes f))
           (f_pos f + Z.of_nat (List.length bs)).
Proof. destruct bs; [congruence|reflexivity]. Qed.

(** Reading at the position where bytes were written gives them back. *)
Lemma fread_bytes_fwrite (bs tail : list byte) (f : FILE) (p : Z) :
  0 <= p -> bs <> [] ->
  fst (fread_bytes (Z.of_nat (List.length bs))
         (fseek_set (fwrite (bs ++ tail) (mkFILE (f_bytes f) p)) p)) = bs.
Proof.
  intros Hp Hbs.
  rewrite fwrite_nonempty by (destruct bs; [congruence|discriminate]).
  cbn [f_pos f_bytes].
  rewrite fseek_set_nonneg by assumption.
  unfold fread_bytes. cbn [fst f_bytes f_pos].
  rewrite skipn_app_exact by apply length_resize.
  rewrite <- app_assoc.
  apply firstn_app_exact. now rewrite Nat2Z.id.
Qed.

(** Two writes in a row are one write of the two sequences. *)
Lemma fwrite_fwrite (b1 b2 : list byte) (f : FILE) :
  0 <= f_pos f -> b1 <> [] ->
  fwrite b2 (fwrite b1 f) = fwrite (b1 ++ b2) f.
Proof.
  intros Hp Hb1.
  destruct b2 as [|c b2]; [now rewrite app_nil_r|].
  set (b2' := c :: b2).
  rewrite (fwrite_nonempty b1) by assumption.
  rewrite (fwrite_nonempty b2') by discriminate.
  rewrite (fwrite_nonempty (b1 ++ b2')) by (destruct b1; [congruence|discriminate]).
  cbn [f_bytes f_pos].
  set (p := Z.to_nat (f_pos f)). set (old := f_bytes f).
  replace (Z.to_nat (f_pos f + Z.of_nat (List.length b1)))
    with (p + List.length b1)%nat by (unfold p; lia).
  assert (Hlen : List.length (resize p old ++ b1) = (p + List.length b1)%nat)
    by (rewrite length_app, length_resize; reflexivity).
  rewrite (app_assoc (resize p old) b1).
  rewrite resize_app_exact by assumption.
  rewrite (Nat.add_comm (p + List.length b1) (List.length b2')).
  rewrite <- skipn_skipn, (skipn_app_exact (p + List.length b1)) by assumption.
  rewrite skipn_skipn, length_app.
  f_equal.
  - rewrite <- !app_assoc. do 3 f_equal. f_equal. lia.
  - lia.
Qed.

Lemma le_split_nonempty (n : nat) (z : Z) : n <> 0%nat -> le_split n z <> [].
Proof. destruct n; [congruence|discriminate]. Qed.

(** An object written at a position is read back from it. *)
Lemma fread_obj_fwrite (size : nat) (v old : Z) (tail : list byte) (f : FILE) (p : Z) :
  0 <= p -> size <> 0%nat ->
  fst (fread_obj size old
         (fseek_set (fwrite (le_split size v ++ tail) (mkFILE (f_bytes f) p)) p))
  = v mod 2 ^ (Z.of_nat size * 8).
Proof.
  intros Hp Hsize. unfold fread_obj.
  pose proof (fread_bytes_fwrite (le_split size v) tail f p Hp
                (le_split_nonempty size v Hsize)) as Hread.
  rewrite length_le_split in Hread.
  destruct (fread_bytes (Z.of_nat size) _) as [got f']. cbn [fst] in *.
  subst got. rewrite length_le_split, skipn_all2, app_nil_r
    by (rewrite length_le_split; lia).
  apply le_combine_split.
Qed.

(** ** db_put *)

Lemma stored_hash_file_bytes (u : locals) (db : hdb) (key : list byte) :
  f_bytes (snd (fread_obj 4 (l_stored_hash u)
                  (fseek_set (hash_file db) (hash_function key mod 128 * 4))))
  = f_bytes (hash_file db).
Proof. rewrite fread_obj_bytes. apply fseek_set_bytes. Qed.

(** [db_delete] seeks before it reads: where the stream of the directory
    stands when it is called does not matter. *)
Lemma db_delete_hash_pos (u : locals) (db : hdb) (hf : FILE) (key : list byte) :
  f_bytes hf = f_bytes (hash_file db) ->
  db_delete u (set_hash_file db hf) key = db_delete u db key.
Proof.
  intros Hb. unfold db_delete. cbn [hash_file set_hash_file].
  rewrite (fseek_set_ext hf (hash_file db))
    by (apply slot_offset4_nonneg || exact Hb).
  reflexivity.
Qed.

Lemma put_record_hash_pos (db : hdb) (hf : FILE) (key value : list byte) :
  f_bytes hf = f_bytes (hash_file db) ->
  put_record (set_hash_file db hf) key value = put_record db key value.
Proof.
  intros Hb. unfold put_record. cbn [hash_file set_hash_file].
  rewrite (fseek_set_ext hf (hash_file db))
    by (apply slot_offset4_nonneg || exact Hb).
  reflexivity.
Qed.

(** A key that is not located is put without a call of [db_delete]. *)
Lemma db_put_not_located (u ud : locals) (db : hdb) (key value : list byte) :
  located u db key = false ->
  db_put u ud db key value = Some (0, put_record db key value).
Proof.
  intros Hloc. unfold located, stored_hash in Hloc. unfold db_put.
  pose proof (stored_hash_file_bytes u db key) as Hb.
  destruct (fread_obj 4 _ _) as [sh hf]. cbn [fst snd] in *.
  rewrite Hloc.
  rewrite <- (put_record_hash_pos db hf key value Hb).
  unfold put_record.
  destruct (rev (deleted_blocks_array (set_hash_file db hf))); reflexivity.
Qed.

(** A key that is located is deleted first. *)
Lemma db_put_located (u ud : locals) (db : hdb) (key value : list byte) :
  located u db key = true ->
  db_put u ud db key value
  = match db_delete ud db key with
    | Some (_, db1) => Some (0, put_record db1 key value)
    | None => None
    end.
Proof.
  intros Hloc. unfold located, stored_hash in Hloc. unfold db_put.
  pose proof (stored_hash_file_bytes u db key) as Hb.
  destruct (fread_obj 4 _ _) as [sh hf]. cbn [fst snd] in *.
  rewrite Hloc, (db_delete_hash_pos ud db hf key Hb).
  destruct (db_delete ud db key) as [[r db1]|]; [|reflexivity].
  cbn [option_map snd]. unfold put_record.
  destruct (rev (deleted_blocks_array db1)); reflexivity.
Qed.

(** [put_record] pops the last entry of the array and records it. *)
Lemma put_record_pops (u : locals) (db : hdb) (key value : list byte)
    (l : list Z) (x : Z) :
  deleted_blocks_array db = l ++ [x] ->
  deleted_blocks_array (put_record db key value) = l
  /\ recorded_position u (put_record db key value) key = u64 x.
Proof.
  intros Harr. unfold put_record, recorded_position.
  rewrite Harr, rev_unit. cbn [deleted_blocks_array hash_file].
  split; [apply rev_involutive|].
  set (hf1 := fwrite (le_split 4 (hash_function key)) _).
  rewrite (fseek_set_nonneg hf1) by apply slot_offset16_nonneg.
  rewrite fwrite_fwrite
    by (cbn [f_pos]; apply slot_offset16_nonneg || apply le_split_nonempty; lia).
  change (mkFILE (f_bytes hf1) (hash_function key mod 128 * 8 * 2))
    with (mkFILE (f_bytes (mkFILE (f_bytes hf1) 0)) (hash_function key mod 128 * 8 * 2)).
  rewrite fread_obj_fwrite by (apply slot_offset16_nonneg || lia).
  unfold u64. now rewrite Z.mod_mod by lia.
Qed.

(** ** The array of deleted blocks *)

(** A delete that returns 0 has appended the position it read. *)
Lemma db_delete_appends (u : locals) (db db' : hdb) (key : list byte) :
  db_delete u db key = Some (0, db') ->
  deleted_blocks_array db'
  = deleted_blocks_array db ++ [to_int (freed_position u db key)].
Proof.
  unfold db_delete, freed_position.
  pose proof (stored_hash_file_bytes u db key) as Hb.
  destruct (fread_obj 4 _ _) as [sh hf]. cbn [snd] in Hb.
  destruct (sh =? hash_function key); cbn [negb]; [|discriminate].
  rewrite (fseek_set_ext hf (hash_file db))
    by (apply slot_offset4_nonneg || exact Hb).
  destruct (fread_obj 8 (l_position u) _) as [position hf1]. cbn [fst].
  destruct (fread_obj 8 (l_length u) hf1) as [len hf2].
  destruct (negb _);
    [destruct (l_refused u) as [df|]; [|discriminate]
    |destruct (fread_bytes _ _) as [buffer df]].
  all: intros Hret.
  all: apply (f_equal (fun r => match r with
                                | Some (_, d) => deleted_blocks_array d
                                | None => []
                                end)) in Hret.
  all: symmetry; exact Hret.
Qed.

Lemma delete_all_appends (ks : list (locals * list byte)) :
  forall db db' freed,
    delete_all ks db = Some (freed, db') ->
    deleted_blocks_array db' = deleted_blocks_array db ++ freed
    /\ List.length freed = List.length ks.
Proof.
  induction ks as [|[u key] rest IH]; intros db db' freed; cbn [delete_all].
  - intros [= <- <-]. now rewrite app_nil_r.
  - destruct (db_delete u db key) as [[r db1]|] eqn:Hdel; [|discriminate].
    destruct r; try discriminate.
    destruct (delete_all rest db1) as [[freed1 db2]|] eqn:Hrest; [|discriminate].
    intros [= <- <-].
    destruct (IH _ _ _ Hrest) as [Harr Hlen].
    rewrite Harr, (db_delete_appends _ _ _ _ Hdel), <- app_assoc.
    cbn [app List.length]. auto.
Qed.

(** [db_delete] returns 0 for a key it locates and -1 otherwise. *)
Lemma db_delete_ret (u : locals) (db db' : hdb) (key : list byte) (r : Z) :
  db_delete u db key = Some (r, db') ->
  r = if located u db key then 0 else -1.
Proof.
  unfold db_delete, located, stored_hash.
  destruct (fread_obj 4 _ _) as [sh hf]. cbn [fst].
  destruct (sh =? hash_function key); cbn [negb].
  - destruct (fread_obj 8 (l_position u) _) as [position hf1].
    destruct (fread_obj 8 (l_length u) hf1) as [len hf2].
    destruct (negb _);
      [destruct (l_refused u) as [df|]; [|discriminate]
      |destruct (fread_bytes _ _) as [buffer df]].
    all: intros Hret.
    all: apply (f_equal (fun o => match o with Some (r, _) => r | None => 0 end))
           in Hret.
    all: symmetry; exact Hret.
  - intros Hret.
    apply (f_equal (fun o => match o with Some (r, _) => r | None => 0 end)) in Hret.
    symmetry. exact Hret.
Qed.

Lemma some_snd_inj {A B : Type} (a a' : A) (b b' : B) :
  Some (a, b) = Some (a', b') -> b = b'.
Proof. congruence. Qed.

(** [db_put] pops the last entry of the array it finds after its call of
    [db_delete], and records it. *)
Lemma db_put_pops (u ud : locals) (db db' : hdb) (key value : list byte)
    (l : list Z) (x : Z) :
  db_put u ud db key value = Some (0, db') ->
  array_at_pop u ud db key = l ++ [x] ->
  deleted_blocks_array db' = l /\ recorded_position u db' key = u64 x.
Proof.
  unfold array_at_pop. intros Hput Harr.
  destruct (located u db key) eqn:Hu; cbn [andb] in Harr.
  - rewrite db_put_located in Hput by assumption.
    destruct (db_delete ud db key) as [[r db1]|] eqn:Hdel; [|discriminate].
    apply some_snd_inj in Hput. subst db'.
    apply put_record_pops. rewrite <- Harr.
    pose proof (db_delete_ret _ _ _ _ _ Hdel) as Hr.
    destruct (located ud db key) eqn:Hud.
    + subst r. apply (db_delete_appends _ _ _ _ Hdel).
    + destruct (db_delete_not_located ud db key Hud) as (db2 & Hdel2 & _ & _ & _ & Ha).
      rewrite Hdel in Hdel2. apply some_snd_inj in Hdel2. now subst db2.
  - rewrite db_put_not_located in Hput by assumption.
    apply some_snd_inj in Hput. subst db'.
    now apply put_record_pops.
Qed.

(** [db_delete] returns in every run that the program completes: where
    [position + length], as the directory gives them after the hash has
    been cleared, is an offset that [fseek] accepts, and where it is not
    and the run that follows leaves a data file. *)
Lemma db_delete_returns (u : locals) (db : hdb) (key : list byte) :
  l_refused u <> None
  \/ u64 (freed_position u db key + freed_length u db key) < 2 ^ 63 ->
  exists db',
    db_delete u db key = Some ((if located u db key then 0 else -1), db').
Proof.
  intros Hrun. destruct (located u db key) eqn:Hloc.
  2: { destruct (db_delete_not_located u db key Hloc) as (db' & Hdel & _).
       now exists db'. }
  revert Hloc Hrun.
  unfold db_delete, located, stored_hash, freed_position, freed_length.
  pose proof (stored_hash_file_bytes u db key) as Hb.
  destruct (fread_obj 4 _ _) as [sh hf]. cbn [snd fst] in *.
  intros Hloc. rewrite Hloc. cbn [negb].
  rewrite (fseek_set_ext hf (hash_file db))
    by (apply slot_offset4_nonneg || exact Hb).
  destruct (fread_obj 8 (l_position u) _) as [position hf1]. cbn [fst snd].
  destruct (fread_obj 8 (l_length u) hf1) as [len hf2]. cbn [fst].
  intros Hrun.
  destruct (Z.eqb_spec
              (u64 (ftell (fseek_set (data_file db) (to_long (u64 (position + len))))
                    - u64 (position + len))) 0) as [Hrem|Hrem];
    cbn [negb].
  - destruct (fread_bytes _ _) as [buffer df]. eexists. reflexivity.
  - destruct (l_refused u) as [df|].
    + eexists. reflexivity.
    + exfalso. destruct Hrun as [Hnone|Hsum]; [now apply Hnone|].
      apply Hrem. apply remaining_size_0.
      split; [apply Z.mod_pos_bound; lia|exact Hsum].
Qed.

Lemma db_put_returns (u ud : locals) (db : hdb) (key value : list byte) :
  l_refused ud <> None
  \/ u64 (freed_position ud db key + freed_length ud db key) < 2 ^ 63 ->
  exists db', db_put u ud db key value = Some (0, db').
Proof.
  intros Hrun. destruct (located u db key) eqn:Hloc.
  - rewrite db_put_located by assumption.
    destruct (db_delete_returns ud db key Hrun) as [db1 Hdel].
    rewrite Hdel. eexists. reflexivity.
  - rewrite db_put_not_located by assumption. eexists. reflexivity.
Qed.

(** C7. The array of deleted blocks is a stack. Every delete that succeeds
    (returns 0) appends one entry, the position of the block it freed; a
    put pops the last entry, the one freed most recently, and records it
    as the position of its key; and after deletes of N keys that all
    succeed the array has N more entries, in the order of the deletes.
    The two calls return in every run that the program completes: a
    delete returns 0 for a key it locates and -1 otherwise, a put returns
    0. *)
Theorem free_list_is_lifo :
  (forall (u : locals) (db db' : hdb) (key : list byte),
      db_delete u db key = Some (0, db') ->
      deleted_blocks_array db'
      = deleted_blocks_array db ++ [to_int (freed_position u db key)])
  /\ (forall (u ud : locals) (db db' : hdb) (key value : list byte)
             (l : list Z) (x : Z),
         db_put u ud db key value = Some (0, db') ->
         array_at_pop u ud db key = l ++ [x] ->
         deleted_blocks_array db' = l /\ recorded_position u db' key = u64 x)
  /\ (forall (ks : list (locals * list byte)) (db db' : hdb) (freed : list Z),
         delete_all ks db = Some (freed, db') ->
         deleted_blocks_array db' = deleted_blocks_array db ++ freed
         /\ List.length freed = List.length ks)
  /\ (forall (u : locals) (db : hdb) (key : list byte),
         l_refused u <> None
         \/ u64 (freed_position u db key + freed_length u db key) < 2 ^ 63 ->
         exists db',
           db_delete u db key
           = Some ((if located u db key then 0 else -1), db'))
  /\ (forall (u ud : locals) (db : hdb) (key value : list byte),
         l_refused ud <> None
         \/ u64 (freed_position ud db key + freed_length ud db key) < 2 ^ 63 ->
         exists db', db_put u ud db key value = Some (0, db')).
Proof.
  split; [|split; [|split; [|split]]].
  - exact db_delete_appends.
  - exact db_put_pops.
  - intros ks db db' freed. apply delete_all_appends.
  - exact db_delete_returns.
  - exact db_put_returns.
Qed.

(** The calls of [test_deleted_blocks_array], and a put after them. Then a
    delete in the run in which [fseek] refuses [position + length]: after
    the three puts and [db_delete("a")] of [session_three_deleted] the
    position recorded for ["h"] is 4 + (2^32 - 4) * 2^32, and
    [db_delete("h")] appends 4, whatever that run leaves of the data file
    (here an empty file). *)
Lemma free_list_is_lifo_witness :
  (exists db1 db2,
      delete_all test_deletes (handle session_test) = Some ([0; 6], db1)
      /\ deleted_blocks_array db1 = [0; 6]
      /\ db_put zeroed zeroed db1 (str "a") (str "AA") = Some (0, db2)
      /\ deleted_blocks_array db2 = [0]
      /\ recorded_position zeroed db2 (str "a") = 6)
  /\ deleted_blocks_array (handle session_three_deleted) = [0]
  /\ 2 ^ 63 <= u64 (freed_position zeroed (handle session_three_deleted) (str "h")
                    + freed_length zeroed (handle session_three_deleted) (str "h"))
  /\ exists db',
       db_delete (mkLocals 0 0 0 0 0 0 (Some (mkFILE [] 0)))
         (handle session_three_deleted) (str "h") = Some (0, db')
       /\ deleted_blocks_array db' = [0; 4].
Proof.
  destruct free_list_is_lifo as (Happ & Hpop & Hall & Hret & _).
  split; [|split; [|split]].
  - eexists. eexists.
    assert (Hdel : delete_all test_deletes (handle session_test)
                   = Some ([0; 6], handle (then_delete (str "key2")
                                     (then_delete (str "key1") session_test))))
      by (vm_compute; reflexivity).
    assert (Hput : db_put zeroed zeroed
                     (handle (then_delete (str "key2")
                                (then_delete (str "key1") session_test)))
                     (str "a") (str "AA")
                   = Some (0, handle (then_put (str "a") (str "AA")
                                 (then_delete (str "key2")
                                    (then_delete (str "key1") session_test)))))
      by (vm_compute; reflexivity).
    split; [exact Hdel|].
    split; [exact (proj1 (Hall _ _ _ _ Hdel))|].
    split; [exact Hput|].
    apply (Hpop zeroed zeroed _ _ _ _ [0] 6 Hput).
    vm_compute. reflexivity.
  - vm_compute. reflexivity.
  - vm_compute. discriminate.
  - destruct (Hret (mkLocals 0 0 0 0 0 0 (Some (mkFILE [] 0)))
                (handle session_three_deleted) (str "h")) as [db' Hdel].
    { left. discriminate. }
    assert (Hloc : located (mkLocals 0 0 0 0 0 0 (Some (mkFILE [] 0)))
                     (handle session_three_deleted) (str "h") = true)
      by (vm_compute; reflexivity).
    rewrite Hloc in Hdel.
    exists db'. split; [exact Hdel|].
    rewrite (Happ _ _ _ _ Hdel). vm_compute. reflexivity.
Defined.

(** ** When a put is read back *)

Lemma hash_loop_range (data : list byte) :
  forall hash prime, 0 <= hash < 2 ^ 32 -> 0 <= hash_loop data hash prime < 2 ^ 32.
Proof.
  induction data as [|b rest IH]; intros hash prime Hh; cbn [hash_loop].
  - exact Hh.
  - apply IH. unfold u32. rewrite (lxor_mod_pow2 32) by lia.
    apply Z.mod_pos_bound. lia.
Qed.

Lemma hash_function_range (key : list byte) : 0 <= hash_function key < 2 ^ 32.
Proof. apply hash_loop_range. lia. Qed.

Lemma firstn_skipn_app_l {A : Type} (n p : nat) (l1 l2 : list A) :
  (p + n <= List.length l1)%nat ->
  firstn n (skipn p (l1 ++ l2)) = firstn n (skipn p l1).
Proof.
  intros Hlen. rewrite skipn_app, firstn_app, length_skipn.
  replace (n - (List.length l1 - p))%nat with 0%nat by lia.
  cbn [firstn]. apply app_nil_r.
Qed.

Lemma firstn_skipn_firstn {A : Type} (n p q : nat) (l : list A) :
  (p + n <= q)%nat -> (p + n <= List.length l)%nat ->
  firstn n (skipn p (firstn q l)) = firstn n (skipn p l).
Proof.
  intros Hq Hl. rewrite <- (firstn_skipn q l) at 2.
  symmetry. apply firstn_skipn_app_l. rewrite length_firstn. lia.
Qed.

(** A write further on leaves what a read finds before it. *)
Lemma fread_bytes_fwrite_before (n p q : Z) (old bs : list byte) :
  0 <= p -> 0 <= n -> p + n <= q -> p + n <= Z.of_nat (List.length old) ->
  fst (fread_bytes n (fseek_set (fwrite bs (mkFILE old q)) p))
  = fst (fread_bytes n (mkFILE old p)).
Proof.
  intros Hp Hn Hq Hold. rewrite fseek_set_nonneg by assumption.
  destruct bs as [|b bs]; [reflexivity|].
  rewrite fwrite_nonempty by discriminate.
  unfold fread_bytes, resize. cbn [fst f_bytes f_pos].
  rewrite <- app_assoc, firstn_skipn_app_l by (rewrite length_firstn; lia).
  apply firstn_skipn_firstn; lia.
Qed.

Lemma fread_obj_full (size : nat) (old : Z) (f : FILE) (bs : list byte) :
  fst (fread_bytes (Z.of_nat size) f) = bs -> List.length bs = size ->
  fst (fread_obj size old f) = le_combine bs.
Proof.
  intros Hread Hlen. unfold fread_obj.
  destruct (fread_bytes (Z.of_nat size) f) as [got f']. cbn [fst] in *.
  subst got. rewrite Hlen, skipn_all2, app_nil_r
    by (rewrite length_le_split; lia).
  reflexivity.
Qed.

Lemma FILE_eta (f : FILE) : f = mkFILE (f_bytes f) (f_pos f).
Proof. destruct f; reflexivity. Qed.

Lemma fwrite_pos (bs : list byte) (f : FILE) :
  f_pos (fwrite bs f) = f_pos f + Z.of_nat (List.length bs).
Proof. destruct bs; cbn [fwrite f_pos List.length]; lia. Qed.

Lemma fwrite_length (bs : list byte) (f : FILE) :
  bs <> [] ->
  (Z.to_nat (f_pos f) + List.length bs <= List.length (f_bytes (fwrite bs f)))%nat.
Proof.
  intros Hbs. rewrite fwrite_nonempty by assumption. cbn [f_bytes].
  rewrite !length_app, length_resize. lia.
Qed.

(** What [put_record] leaves in the directory, with an empty array of
    deleted blocks. *)
Lemma put_record_hash_file (db : hdb) (key value : list byte) :
  deleted_blocks_array db = [] ->
  hash_file (put_record db key value)
  = fwrite (le_split 8 (Z.of_nat (List.length value)))
      (fwrite (le_split 8 (u64 (Z.of_nat (List.length (f_bytes (data_file db))))))
         (fseek_set
            (fwrite (le_split 4 (hash_function key))
               (fseek_set (hash_file db) (hash_function key mod 128 * 4)))
            (hash_function key mod 128 * 8 * 2)))
  /\ data_file (put_record db key value) = fwrite value (fseek_end (data_file db)).
Proof.
  intros Harr. unfold put_record. rewrite Harr. cbn [rev]. split; reflexivity.
Qed.

Lemma fread_bytes_fwrite_same (bs : list byte) (f : FILE) :
  0 <= f_pos f -> bs <> [] ->
  fst (fread_bytes (Z.of_nat (List.length bs)) (fseek_set (fwrite bs f) (f_pos f)))
  = bs.
Proof.
  intros Hp Hbs.
  pose proof (fread_bytes_fwrite bs [] f (f_pos f) Hp Hbs) as Hr.
  now rewrite app_nil_r, <- FILE_eta in Hr.
Qed.

Lemma fread_bytes_fwrite_earlier (n p : Z) (bs : list byte) (f : FILE) :
  0 <= p -> 0 <= n -> p + n <= f_pos f ->
  p + n <= Z.of_nat (List.length (f_bytes f)) ->
  fst (fread_bytes n (fseek_set (fwrite bs f) p))
  = fst (fread_bytes n (fseek_set f p)).
Proof.
  intros Hp Hn Hq Hlen. rewrite (FILE_eta f) at 1.
  rewrite fread_bytes_fwrite_before by assumption.
  now rewrite fseek_set_nonneg by assumption.
Qed.

Lemma fseek_set_pos (f : FILE) (p : Z) : 0 <= p -> f_pos (fseek_set f p) = p.
Proof. intros Hp. now rewrite fseek_set_nonneg. Qed.

Lemma fseek_set_twice (f : FILE) (p q : Z) :
  0 <= p -> fseek_set (fseek_set f q) p = fseek_set f p.
Proof. intros Hp. apply fseek_set_ext; [assumption|apply fseek_set_bytes]. Qed.

(** A put of a key that is not located, in a slot other than 0 and with no
    deleted block to reuse, is read back by [db_get]: the bytes of the
    value and its length. *)
Lemma put_then_get (u ud u' : locals) (db : hdb) (key value : list byte) :
  located u db key = false ->
  deleted_blocks_array db = [] ->
  hash_function key mod 128 <> 0 ->
  Z.of_nat (List.length (f_bytes (data_file db))) < 2 ^ 63 ->
  Z.of_nat (List.length value) < 2 ^ 64 ->
  exists db',
    db_put u ud db key value = Some (0, db')
    /\ fst (db_get u' db' key)
       = mkGet 0 value (Some (Z.of_nat (List.length value))).
Proof.
  intros Hloc Harr Hslot Hdata Hvalue.
  rewrite db_put_not_located by assumption.
  eexists. split; [reflexivity|].
  destruct (put_record_hash_file db key value Harr) as [Hhf Hdf].
  pose proof (hash_function_range key) as Hhash.
  pose proof (Z.mod_pos_bound (hash_function key) 128 ltac:(lia)) as Hs.
  set (s := hash_function key mod 128) in *.
  set (len := Z.of_nat (List.length (f_bytes (data_file db)))) in *.
  set (H := le_split 4 (hash_function key)) in *.
  set (P := le_split 8 (u64 len)) in *.
  set (L := le_split 8 (Z.of_nat (List.length value))) in *.
  set (hf1 := fwrite H (fseek_set (hash_file db) (s * 4))) in *.
  set (f2 := fwrite P (fseek_set hf1 (s * 8 * 2))) in *.
  assert (HlenH : List.length H = 4%nat) by apply length_le_split.
  assert (HlenP : List.length P = 8%nat) by apply length_le_split.
  assert (HlenL : List.length L = 8%nat) by apply length_le_split.
  assert (Hf2pos : f_pos f2 = s * 8 * 2 + 8).
  { unfold f2. rewrite fwrite_pos, fseek_set_pos, HlenP by lia. reflexivity. }
  assert (Hhf1len : s * 4 + 4 <= Z.of_nat (List.length (f_bytes hf1))).
  { pose proof (fwrite_length H (fseek_set (hash_file db) (s * 4))
                  ltac:(discriminate)) as Hl.
    rewrite fseek_set_pos in Hl by lia. fold hf1 in Hl. lia. }
  assert (Hf2len : s * 8 * 2 + 8 <= Z.of_nat (List.length (f_bytes f2))).
  { pose proof (fwrite_length P (fseek_set hf1 (s * 8 * 2))
                  ltac:(discriminate)) as Hl.
    rewrite fseek_set_pos in Hl by lia. fold f2 in Hl. lia. }
  assert (Hu64 : u64 len = len) by (apply Z.mod_small; lia).
  (* the hash is found *)
  assert (Hstored : stored_hash u' (put_record db key value) key = hash_function key).
  { unfold stored_hash. fold s. rewrite Hhf.
    rewrite (fread_obj_full 4 _ _ H); [| |exact HlenH].
    - unfold H. rewrite le_combine_split. apply Z.mod_small. exact Hhash.
    - change (Z.of_nat 4) with 4.
      rewrite fread_bytes_fwrite_earlier by lia.
      unfold f2. rewrite fread_bytes_fwrite_earlier
        by (rewrite ?fseek_set_pos, ?fseek_set_bytes by lia; lia).
      rewrite fseek_set_twice by lia.
      unfold hf1.
      pose proof (fread_bytes_fwrite_same H (fseek_set (hash_file db) (s * 4))) as Hr.
      rewrite fseek_set_pos, HlenH in Hr by lia.
      apply Hr; [lia|discriminate]. }
  (* the position and the length are read back *)
  assert (Hpos : recorded_position u' (put_record db key value) key = len).
  { unfold recorded_position. fold s. rewrite Hhf. unfold f2.
    rewrite (fseek_set_nonneg hf1) by lia.
    rewrite fwrite_fwrite by (cbn [f_pos]; lia || discriminate).
    change (mkFILE (f_bytes hf1) (s * 8 * 2))
      with (mkFILE (f_bytes (mkFILE (f_bytes hf1) 0)) (s * 8 * 2)).
    unfold P. rewrite fread_obj_fwrite by lia.
    rewrite Hu64. apply Z.mod_small. lia. }
  assert (Hlength :
            fst (fread_obj 8 (l_length u')
                   (snd (fread_obj 8 (l_position u')
                           (fseek_set (hash_file (put_record db key value))
                              (s * 8 * 2)))))
            = Z.of_nat (List.length value)).
  { rewrite Hhf.
    assert (Hgot : fst (fread_bytes (Z.of_nat 8) (fseek_set (fwrite L f2) (s * 8 * 2))) = P).
    { unfold f2. rewrite (fseek_set_nonneg hf1) by lia.
      rewrite fwrite_fwrite by (cbn [f_pos]; lia || discriminate).
      change (mkFILE (f_bytes hf1) (s * 8 * 2))
        with (mkFILE (f_bytes (mkFILE (f_bytes hf1) 0)) (s * 8 * 2)).
      rewrite <- HlenP at 1. apply fread_bytes_fwrite; [lia|discriminate]. }
    assert (Hsnd : snd (fread_obj 8 (l_position u') (fseek_set (fwrite L f2) (s * 8 * 2)))
                   = fseek_set (fwrite L f2) (f_pos f2)).
    { unfold fread_obj.
      destruct (fread_bytes (Z.of_nat 8) _) as [got f'] eqn:E. cbn [fst snd] in *.
      subst got. unfold fread_bytes in E.
      apply (f_equal snd) in E. cbn [snd] in E. rewrite <- E.
      rewrite length_firstn.
      rewrite !fseek_set_nonneg by lia. unfold set_pos. cbn [f_pos f_bytes].
      f_equal. rewrite Hf2pos.
      pose proof (fwrite_length L f2 ltac:(discriminate)) as Hl.
      rewrite length_skipn. lia. }
    rewrite Hsnd.
    rewrite (fread_obj_full 8 _ _ L); [| |exact HlenL].
    - unfold L. rewrite le_combine_split. apply Z.mod_small. lia.
    - rewrite <- HlenL at 1. apply fread_bytes_fwrite_same; [lia|discriminate]. }
  rewrite db_get_unfold. unfold located. rewrite Hstored, Z.eqb_refl.
  cbv zeta. rewrite Hpos. fold s. rewrite Hlength. f_equal.
  rewrite read_loop_enough.
  - rewrite Hdf, to_long_small by lia. cbn [app]. rewrite Z.sub_0_r.
    destruct value as [|b value'] eqn:Ev; [reflexivity|]. rewrite <- Ev.
    assert (Hne : value <> []) by (rewrite Ev; discriminate).
    pose proof (fread_bytes_fwrite_same value (fseek_end (data_file db))
                  ltac:(cbn [fseek_end set_pos f_pos]; lia) Hne) as Hr.
    exact Hr.
  - rewrite to_long_small, fseek_set_pos by lia. lia.
  - rewrite Z.sub_0_r. apply rounds_enough.
Qed.

(** ** What the locals hold at the start *)

(** In a first session the directory file is empty, the first [fread]
    reads nothing and [stored_hash] keeps what it held. *)
Lemma located_fresh (u : locals) (key : list byte) :
  located u fresh_db key = (l_stored_hash u mod 2 ^ 32 =? hash_function key).
Proof.
  unfold located, stored_hash.
  rewrite fseek_set_nonneg by apply slot_offset4_nonneg.
  unfold fread_obj, fread_bytes. cbn [f_bytes f_pos hash_file fresh_db fst].
  change (f_bytes (hash_file fresh_db)) with (@nil byte).
  rewrite skipn_nil, firstn_nil. cbn [app List.length skipn].
  now rewrite le_combine_split.
Qed.

(** [db_get] in a first session, before any put: NotFound, unless
    [stored_hash] happens to hold the hash of the key. *)
Lemma db_get_fresh (u : locals) (key : list byte) :
  l_stored_hash u mod 2 ^ 32 <> hash_function key ->
  fst (db_get u fresh_db key) = mkGet (-1) [] None.
Proof.
  intros Hne. rewrite db_get_unfold, located_fresh.
  destruct (Z.eqb_spec (l_stored_hash u mod 2 ^ 32) (hash_function key));
    [contradiction|reflexivity].
Qed.

(** The locals matter to a put only through the test [stored_hash == hash]. *)
Lemma db_put_locals (u ud u' ud' : locals) (db : hdb) (key value : list byte) :
  located u db key = false -> located u' db key = false ->
  db_put u ud db key value = db_put u' ud' db key value.
Proof. intros Hu Hu'. now rewrite !db_put_not_located. Qed.

(** ** What a delete leaves of the data file *)

(** A delete that returns 0, where the position and [position + length]
    are offsets that [fseek] accepts, cuts the data file at the position of
    the block it frees (or extends it with zero bytes up to there): no byte
    after the block is kept. *)
Lemma db_delete_truncates (u : locals) (db db' : hdb) (key : list byte) :
  db_delete u db key = Some (0, db') ->
  freed_position u db key < 2 ^ 63 ->
  u64 (freed_position u db key + freed_length u db key) < 2 ^ 63 ->
  f_bytes (data_file db')
  = resize (Z.to_nat (freed_position u db key)) (f_bytes (data_file db)).
Proof.
  unfold db_delete, freed_position, freed_length.
  pose proof (stored_hash_file_bytes u db key) as Hb.
  destruct (fread_obj 4 _ _) as [sh hf]. cbn [snd] in Hb.
  destruct (sh =? hash_function key); cbn [negb]; [|discriminate].
  rewrite (fseek_set_ext hf (hash_file db))
    by (apply slot_offset4_nonneg || exact Hb).
  pose proof (fread_obj_range 8 (l_position u)
                (fseek_set
                   (fwrite (le_split 4 0)
                      (fseek_set (hash_file db) (hash_function key mod 128 * 4)))
                   (hash_function key mod 128 * 8 * 2))) as Hrange.
  destruct (fread_obj 8 (l_position u) _) as [position hf1]. cbn [fst snd] in *.
  destruct (fread_obj 8 (l_length u) hf1) as [len hf2]. cbn [fst].
  destruct (Z.eqb_spec
              (u64 (ftell (fseek_set (data_file db) (to_long (u64 (position + len))))
                    - u64 (position + len))) 0) as [Hrem|Hrem];
    cbn [negb].
  2: { intros _ _ Hsum. exfalso. apply Hrem. apply remaining_size_0.
       split; [apply Z.mod_pos_bound; lia|exact Hsum]. }
  rewrite Hrem.
  intros Hret Hpos _.
  apply (f_equal (fun r => match r with
                           | Some (_, d) => f_bytes (data_file d)
                           | None => []
                           end)) in Hret.
  rewrite <- Hret. clear Hret Hrem.
  unfold fread_bytes. cbn [fst snd Z.to_nat firstn List.length fwrite data_file].
  assert (Hu : u64 (position + 0) = position)
    by (rewrite Z.add_0_r; apply Z.mod_small; lia).
  assert (Hl : to_long position = position) by (apply to_long_small; lia).
  rewrite Hu, Hl.
  unfold ftruncate.
  destruct (Z.ltb_spec position 0) as [Hneg|_]; [lia|].
  unfold set_bytes. cbn [f_bytes].
  rewrite fseek_set_bytes. unfold set_pos. cbn [f_bytes].
  now rewrite fseek_set_bytes.
Qed.

(** ** Where a put writes the value *)

(** With an entry to pop, the value goes to the place where the stream of
    the data file stands, whatever the entry. *)
Lemma put_record_data_file (db : hdb) (key value : list byte)
    (l : list Z) (x : Z) :
  deleted_blocks_array db = l ++ [x] ->
  data_file (put_record db key value) = fwrite value (data_file db).
Proof.
  intros Harr. unfold put_record. rewrite Harr, rev_unit. reflexivity.
Qed.

(** ** Sessions *)

(** C2 at a failing input. After [db_put("a", "AAAA")], [db_put("h", "BB")]
    and [db_put("b", "C")], the loop of [db_delete("a")] rewrites the 8
    bytes at 132 of the directory: the position recorded for ["h"] becomes
    4 + (2^32 - 4) * 2^32, which [fseek] refuses. [db_put("key1", "XY")] then
    leaves ["XY"] in the data file and its stream at 2. Before the close
    [db_get("h")] reads at 2 and finds no byte; after [db_close] and
    [db_open] it reads at 0 and stores ['X']. *)
Theorem reopen_changes_get :
  session_rewritten = Some (0, handle session_rewritten)
  /\ located zeroed (handle session_rewritten) (str "h") = true
  /\ recorded_position zeroed (handle session_rewritten) (str "h")
     = 4 + (2 ^ 32 - 4) * 2 ^ 32
  /\ f_bytes (data_file (handle session_rewritten)) = str "XY"
  /\ f_pos (data_file (handle session_rewritten)) = 2
  /\ fst (db_get zeroed (handle session_rewritten) (str "h")) = mkGet 0 [] (Some 1)
  /\ fst (db_get zeroed (db_open (db_close (handle session_rewritten))) (str "h"))
     = mkGet 0 (str "X") (Some 1).
Proof. repeat split; vm_compute; reflexivity. Qed.

(** A key that was never put and has the hash of a key that was put is
    found: after [db_put("a", "AA")] in a first session the key of the two
    bytes 0 and ['a'] has the hash of ["a"], and [db_get] returns 0 for it
    with the value of ["a"]. *)
Lemma never_put_key_is_found :
  session_a = Some (0, handle session_a)
  /\ Byte.x00 :: str "a" <> str "a"
  /\ hash_function (Byte.x00 :: str "a") = hash_function (str "a")
  /\ fst (db_get zeroed (handle session_a) (Byte.x00 :: str "a"))
     = mkGet 0 (str "AA") (Some 2).
Proof.
  split; [vm_compute; reflexivity|].
  split; [discriminate|].
  split; vm_compute; reflexivity.
Qed.

(** C8 at a failing input. No collision of hashes is needed for a key that
    was never put to be found. After [db_put("a", "AA")] in a first session
    the key of one zero byte is found, whatever the locals of [db_get]
    hold: its hash is 0, the hash of no key that was put, and 0 is what the
    bytes of slot 0, which nothing has written, hold; [db_get] returns 0
    and the length 0. After [db_put("h", "BB")] and [db_put("-", v)] with a
    value of 518 bytes in a first session the key of the one byte 14 is
    found as well: its hash 518 is the hash of neither key and stands in
    the directory as the length of [v], in the bytes in which [db_get]
    looks for the hash of slot 6. *)
Theorem get_finds_key_never_put :
  session_a = Some (0, handle session_a)
  /\ hash_function (str "a") = 3589
  /\ hash_function [Byte.x00] = 0
  /\ (forall u : locals,
         fst (db_get u (handle session_a) [Byte.x00]) = mkGet 0 [] (Some 0))
  /\ session_dash = Some (0, handle session_dash)
  /\ hash_function (str "h") = 3848
  /\ hash_function (str "-") = 1665
  /\ hash_function [Byte.x0e] = 518
  /\ (forall u : locals,
         fst (db_get u (handle session_dash) [Byte.x0e]) = mkGet 0 [] (Some 0)).
Proof.
  split; [vm_compute; reflexivity|].
  split; [vm_compute; reflexivity|].
  split; [vm_compute; reflexivity|].
  split.
  { intros u. rewrite db_get_unfold.
    assert (Hloc : located u (handle session_a) [Byte.x00] = true)
      by (vm_compute; reflexivity).
    rewrite Hloc. vm_compute. reflexivity. }
  split; [vm_compute; reflexivity|].
  split; [vm_compute; reflexivity|].
  split; [vm_compute; reflexivity|].
  split; [vm_compute; reflexivity|].
  intros u. rewrite db_get_unfold.
  assert (Hloc : located u (handle session_dash) [Byte.x0e] = true)
    by (vm_compute; reflexivity).
  rewrite Hloc. vm_compute. reflexivity.
Qed.

(** C9 at a failing input. After [db_put("a", "AAAA")], [db_put("h", "BB")]
    and [db_put("b", "C")] the key of one zero byte is absent: it was not
    put, and its hash 0 is the hash of none of the three keys. [db_delete]
    of it returns 0, not -1: it finds its hash in the zero bytes of slot 0,
    takes the position 0 from them, appends 0 to the array of deleted
    blocks and cuts the data file at 0. The three values are gone. *)
Theorem delete_of_absent_key_empties_data :
  session_three = Some (0, handle session_three)
  /\ f_bytes (data_file (handle session_three)) = str "AAAABBC"
  /\ deleted_blocks_array (handle session_three) = []
  /\ hash_function [Byte.x00] = 0
  /\ hash_function (str "a") = 3589
  /\ hash_function (str "h") = 3848
  /\ hash_function (str "b") = 3626
  /\ session_three_zero = Some (0, handle session_three_zero)
  /\ f_bytes (data_file (handle session_three_zero)) = []
  /\ deleted_blocks_array (handle session_three_zero) = [0].
Proof.
  assert (H : option_map
                (fun p => (fst p, f_bytes (data_file (snd p)),
                           deleted_blocks_array (snd p)))
                session_three_zero
              = Some (0, [], [0])) by (vm_compute; reflexivity).
  destruct session_three_zero as [[r db]|]; [|discriminate].
  cbn [option_map fst snd] in H. injection H as Hr Hd Ha. subst r.
  cbn [handle]. rewrite Hd, Ha.
  repeat split; vm_compute; reflexivity.
Qed.

(** C1 at a failing input. The slot of ["ki"] is 0, where the position is
    written over the hash: after [db_put("ki", "v")] in a first session,
    [db_get("ki")] returns -1. *)
Theorem put_then_get_slot_0 :
  hash_function (str "ki") mod 128 = 0
  /\ session_ki = Some (0, handle session_ki)
  /\ fst (db_get zeroed (handle session_ki) (str "ki")) = mkGet (-1) [] None.
Proof. repeat split; vm_compute; reflexivity. Qed.

(** C3 at a failing input. With ["AAAA"] at 0 for ["a"], ["BB"] at 4 for
    ["h"] and ["C"] at 6 for ["b"], [db_delete("a")] leaves an empty data
    file, not the 3 bytes ["BBC"]; the position recorded for ["h"] is not 0
    and the one recorded for ["b"] is still 6, not 2. *)
Theorem delete_drops_what_follows :
  session_three = Some (0, handle session_three)
  /\ f_bytes (data_file (handle session_three)) = str "AAAABBC"
  /\ recorded_position zeroed (handle session_three) (str "a") = 0
  /\ recorded_position zeroed (handle session_three) (str "h") = 4
  /\ recorded_position zeroed (handle session_three) (str "b") = 6
  /\ session_three_deleted = Some (0, handle session_three_deleted)
  /\ f_bytes (data_file (handle session_three_deleted)) = []
  /\ recorded_position zeroed (handle session_three_deleted) (str "h")
     = 4 + (2 ^ 32 - 4) * 2 ^ 32
  /\ recorded_position zeroed (handle session_three_deleted) (str "b") = 6.
Proof. repeat split; vm_compute; reflexivity. Qed.

(** C4 at a failing input. The slot of ["a"] is 5. After
    [db_put("a", "AA")] in a first session the directory file has 96 bytes,
    fewer than the 100 that come before a record at 5 * 20: the hash is at
    5 * 4 and the position and the length are at 5 * 16. *)
Theorem put_writes_at_two_strides :
  hash_function (str "a") mod 128 = 5
  /\ session_a = Some (0, handle session_a)
  /\ f_bytes (hash_file (handle session_a))
     = repeat Byte.x00 20 ++ le_split 4 (hash_function (str "a"))
       ++ repeat Byte.x00 56 ++ le_split 8 0 ++ le_split 8 2
  /\ List.length (f_bytes (hash_file (handle session_a))) = 96%nat.
Proof. repeat split; vm_compute; reflexivity. Qed.

(** C6 at a failing input. Two puts and a delete of the second key leave
    ["AA"] in the data file and the offset 2 in the array of deleted blocks.
    In a second session on the same paths the stream of the data file
    stands at 0. [db_put("key1", "CC")] records 2 and writes ["CC"] at 0,
    over the value of ["a"]; [db_get("key1")] then finds no byte at 2. *)
Theorem put_writes_at_stream_position :
  session_reopened = Some (0, handle session_reopened)
  /\ deleted_blocks_array (handle session_reopened) = [2]
  /\ f_bytes (data_file (handle session_reopened)) = str "AA"
  /\ f_pos (data_file (handle session_reopened)) = 0
  /\ session_reused = Some (0, handle session_reused)
  /\ recorded_position zeroed (handle session_reused) (str "key1") = 2
  /\ f_bytes (data_file (handle session_reused)) = str "CC"
  /\ fst (db_get zeroed (handle session_reused) (str "key1")) = mkGet 0 [] (Some 2)
  /\ fst (db_get zeroed (handle session_reused) (str "a")) = mkGet 0 (str "CC") (Some 2).
Proof. repeat split; vm_compute; reflexivity. Qed.

(** * Further properties *)

(** ** More on the hash function *)

Lemma hash_loop_zeros (n : nat) :
  forall prime, hash_loop (repeat Byte.x00 n) 0 prime = 0.
Proof.
  induction n as [|n IH]; intros prime; cbn [repeat hash_loop].
  - reflexivity.
  - change (byte.unsigned Byte.x00) with 0.
    rewrite Z.mul_0_l. change (u32 0) with 0. cbn [Z.lxor]. apply IH.
Qed.

Lemma hash_loop_zeros_then_byte (n : nat) (b : byte) :
  forall prime,
    hash_loop (repeat Byte.x00 n ++ [b]) 0 prime = 37 * byte.unsigned b.
Proof.
  pose proof (byte.unsigned_range b) as Hb.
  induction n as [|n IH]; intros prime; cbn [repeat app hash_loop].
  - unfold u32, prime2. rewrite Z.mul_0_l, Z.mod_0_l by lia. cbn [Z.lxor].
    rewrite Z.mod_small by lia. lia.
  - change (byte.unsigned Byte.x00) with 0.
    rewrite !Z.mul_0_l. change (u32 0) with 0. cbn [Z.lxor]. apply IH.
Qed.

(** X1. Every key of zero bytes only, the empty key among them, has the
    hash 0, the value that [db_delete] writes to clear a slot. *)
Theorem hash_function_zero_bytes (n : nat) :
  hash_function (repeat Byte.x00 n) = 0.
Proof. apply hash_loop_zeros. Qed.

(** X2. Zero bytes before the last byte of a key do not count: a key of
    any number of zero bytes followed by one byte [b] has the hash
    [37 * b], so all these keys share a slot and a stored hash. *)
Theorem hash_function_zeros_then_byte (n : nat) (b : byte) :
  hash_function (repeat Byte.x00 n ++ [b]) = 37 * byte.unsigned b.
Proof. apply hash_loop_zeros_then_byte. Qed.

(** ** What db_get stores *)

Lemma fread_bytes_slice (n : Z) (bs : list byte) (p : Z) :
  fst (fread_bytes n (mkFILE bs p)) = slice p n bs.
Proof. reflexivity. Qed.


(** The value and the length of a key that is located, for a recorded
    position that [fseek] accepts. *)
Lemma db_get_located (u : locals) (db : hdb) (key : list byte) :
  located u db key = true ->
  recorded_position u db key < 2 ^ 63 ->
  fst (db_get u db key)
  = mkGet 0
      (slice (recorded_position u db key) (recorded_length u db key)
         (f_bytes (data_file db)))
      (Some (recorded_length u db key)).
Proof.
  intros Hloc Hpos.
  pose proof (fread_obj_range 8 (l_position u)
                (fseek_set (hash_file db) (hash_function key mod 128 * 8 * 2)))
    as Hrange.
  fold (recorded_position u db key) in Hrange.
  rewrite db_get_unfold, Hloc. cbv zeta.
  fold (recorded_length u db key).
  rewrite read_loop_enough.
  - rewrite to_long_small, fseek_set_nonneg, Z.sub_0_r by lia.
    cbn [app]. now rewrite fread_bytes_slice.
  - rewrite to_long_small, fseek_set_pos by lia. lia.
  - rewrite Z.sub_0_r. apply rounds_enough.
Qed.





(** ** What db_put records *)

Lemma put_position_range (db : hdb) : 0 <= put_position db < 2 ^ 64.
Proof.
  unfold put_position, u64.
  destruct (rev (deleted_blocks_array db)); apply Z.mod_pos_bound; lia.
Qed.

Lemma put_record_hash_file_any (db : hdb) (key value : list byte) :
  hash_file (put_record db key value)
  = fwrite (le_split 8 (Z.of_nat (List.length value)))
      (fwrite (le_split 8 (put_position db))
         (fseek_set
            (fwrite (le_split 4 (hash_function key))
               (fseek_set (hash_file db) (hash_function key mod 128 * 4)))
            (hash_function key mod 128 * 8 * 2))).
Proof.
  unfold put_record, put_position.
  destruct (rev (deleted_blocks_array db)); reflexivity.
Qed.

(** After [put_record] the directory gives the key back: its hash, the
    position taken and the length of the value, for a slot other than 0. *)
Lemma put_record_directory (u' : locals) (db : hdb) (key value : list byte) :
  slot key <> 0 ->
  Z.of_nat (List.length value) < 2 ^ 64 ->
  located u' (put_record db key value) key = true
  /\ recorded_position u' (put_record db key value) key = put_position db
  /\ recorded_length u' (put_record db key value) key
     = Z.of_nat (List.length value).
Proof.
  unfold slot. intros Hslot Hvalue.
  pose proof (put_record_hash_file_any db key value) as Hhf.
  pose proof (hash_function_range key) as Hhash.
  pose proof (put_position_range db) as Hpp.
  pose proof (Z.mod_pos_bound (hash_function key) 128 ltac:(lia)) as Hs.
  set (s := hash_function key mod 128) in *.
  set (H := le_split 4 (hash_function key)) in *.
  set (P := le_split 8 (put_position db)) in *.
  set (L := le_split 8 (Z.of_nat (List.length value))) in *.
  set (hf1 := fwrite H (fseek_set (hash_file db) (s * 4))) in *.
  set (f2 := fwrite P (fseek_set hf1 (s * 8 * 2))) in *.
  assert (HlenH : List.length H = 4%nat) by apply length_le_split.
  assert (HlenP : List.length P = 8%nat) by apply length_le_split.
  assert (HlenL : List.length L = 8%nat) by apply length_le_split.
  assert (Hf2pos : f_pos f2 = s * 8 * 2 + 8).
  { unfold f2. rewrite fwrite_pos, fseek_set_pos, HlenP by lia. reflexivity. }
  assert (Hhf1len : s * 4 + 4 <= Z.of_nat (List.length (f_bytes hf1))).
  { pose proof (fwrite_length H (fseek_set (hash_file db) (s * 4))
                  ltac:(discriminate)) as Hl.
    rewrite fseek_set_pos in Hl by lia. fold hf1 in Hl. lia. }
  assert (Hf2len : s * 8 * 2 + 8 <= Z.of_nat (List.length (f_bytes f2))).
  { pose proof (fwrite_length P (fseek_set hf1 (s * 8 * 2))
                  ltac:(discriminate)) as Hl.
    rewrite fseek_set_pos in Hl by lia. fold f2 in Hl. lia. }
  assert (Hgot : fst (fread_bytes (Z.of_nat 8) (fseek_set (fwrite L f2) (s * 8 * 2))) = P).
  { unfold f2. rewrite (fseek_set_nonneg hf1) by lia.
    rewrite fwrite_fwrite by (cbn [f_pos]; lia || discriminate).
    change (mkFILE (f_bytes hf1) (s * 8 * 2))
      with (mkFILE (f_bytes (mkFILE (f_bytes hf1) 0)) (s * 8 * 2)).
    rewrite <- HlenP at 1. apply fread_bytes_fwrite; [lia|discriminate]. }
  split; [|split].
  - unfold located, stored_hash. fold s. rewrite Hhf.
    rewrite (fread_obj_full 4 _ _ H); [| |exact HlenH].
    + unfold H. rewrite le_combine_split, Z.mod_small by exact Hhash.
      apply Z.eqb_refl.
    + change (Z.of_nat 4) with 4.
      rewrite fread_bytes_fwrite_earlier by lia.
      unfold f2. rewrite fread_bytes_fwrite_earlier
        by (rewrite ?fseek_set_pos, ?fseek_set_bytes by lia; lia).
      rewrite fseek_set_twice by lia.
      unfold hf1.
      pose proof (fread_bytes_fwrite_same H (fseek_set (hash_file db) (s * 4))) as Hr.
      rewrite fseek_set_pos, HlenH in Hr by lia.
      apply Hr; [lia|discriminate].
  - unfold recorded_position. fold s. rewrite Hhf.
    rewrite (fread_obj_full 8 _ _ P Hgot HlenP).
    unfold P. rewrite le_combine_split. apply Z.mod_small. lia.
  - unfold recorded_length. fold s. rewrite Hhf.
    assert (Hsnd : snd (fread_obj 8 (l_position u') (fseek_set (fwrite L f2) (s * 8 * 2)))
                   = fseek_set (fwrite L f2) (f_pos f2)).
    { unfold fread_obj.
      destruct (fread_bytes (Z.of_nat 8) _) as [got f'] eqn:E. cbn [fst snd] in *.
      subst got. unfold fread_bytes in E.
      apply (f_equal snd) in E. cbn [snd] in E. rewrite <- E.
      rewrite length_firstn.
      rewrite !fseek_set_nonneg by lia. unfold set_pos. cbn [f_pos f_bytes].
      f_equal. rewrite Hf2pos.
      pose proof (fwrite_length L f2 ltac:(discriminate)) as Hl.
      rewrite length_skipn. lia. }
    rewrite Hsnd.
    rewrite (fread_obj_full 8 _ _ L); [| |exact HlenL].
    + unfold L. rewrite le_combine_split. apply Z.mod_small. lia.
    + rewrite <- HlenL at 1. apply fread_bytes_fwrite_same; [lia|discriminate].
Qed.

Lemma resize_all (bs : list byte) : resize (List.length bs) bs = bs.
Proof.
  unfold resize. rewrite firstn_all, Nat.sub_diag. apply app_nil_r.
Qed.

Lemma fwrite_at_end (bs : list byte) (f : FILE) :
  f_bytes (fwrite bs (fseek_end f)) = f_bytes f ++ bs.
Proof.
  destruct bs as [|b bs]; [now rewrite app_nil_r|].
  rewrite fwrite_nonempty by discriminate.
  cbn [f_bytes f_pos fseek_end set_pos]. rewrite Nat2Z.id, resize_all.
  rewrite skipn_all2 by lia. now rewrite app_nil_r.
Qed.

(** What is read where a value was just written is the value. *)
Lemma slice_fwrite (bs : list byte) (f : FILE) :
  0 <= f_pos f ->
  slice (f_pos f) (Z.of_nat (List.length bs)) (f_bytes (fwrite bs f)) = bs.
Proof.
  intros Hp. destruct bs as [|b bs]; [reflexivity|].
  pose proof (fread_bytes_fwrite_same (b :: bs) f Hp ltac:(discriminate)) as Hr.
  rewrite fseek_set_nonneg in Hr by assumption. exact Hr.
Qed.

(** X5. A put of a key that is not located, with no deleted block to reuse,
    appends: the data file afterwards is the data file before followed by
    the bytes of the value, the array of deleted blocks is still empty and
    the file of deleted blocks is untouched. *)
Theorem db_put_appends (u ud : locals) (db : hdb) (key value : list byte) :
  located u db key = false ->
  deleted_blocks_array db = [] ->
  exists db',
    db_put u ud db key value = Some (0, db')
    /\ f_bytes (data_file db') = f_bytes (data_file db) ++ value
    /\ deleted_blocks_array db' = []
    /\ deleted_blocks db' = deleted_blocks db.
Proof.
  intros Hloc Harr. rewrite db_put_not_located by assumption.
  eexists. split; [reflexivity|].
  destruct (put_record_hash_file db key value Harr) as [_ Hdf].
  rewrite Hdf, fwrite_at_end. split; [reflexivity|].
  unfold put_record. rewrite Harr. split; reflexivity.
Qed.

Lemma db_put_appends_witness :
  (located zeroed (handle session_a) (str "h") = false
   /\ deleted_blocks_array (handle session_a) = [])
  /\ exists db',
       db_put zeroed zeroed (handle session_a) (str "h") (str "BB") = Some (0, db')
       /\ f_bytes (data_file db') = f_bytes (data_file (handle session_a)) ++ str "BB"
       /\ deleted_blocks_array db' = []
       /\ deleted_blocks db' = deleted_blocks (handle session_a).
Proof.
  split; [split; vm_compute; reflexivity|].
  apply (db_put_appends zeroed zeroed (handle session_a) (str "h") (str "BB"));
    vm_compute; reflexivity.
Defined.

(** ** What db_delete leaves *)

(** The data file and its stream after a delete that returns 0, where the
    position and [position + length] are offsets that [fseek] accepts. *)
Lemma db_delete_data_file (u : locals) (db db' : hdb) (key : list byte) :
  db_delete u db key = Some (0, db') ->
  freed_position u db key < 2 ^ 63 ->
  u64 (freed_position u db key + freed_length u db key) < 2 ^ 63 ->
  data_file db'
  = mkFILE (resize (Z.to_nat (freed_position u db key)) (f_bytes (data_file db)))
           (freed_position u db key).
Proof.
  unfold db_delete, freed_position, freed_length.
  pose proof (stored_hash_file_bytes u db key) as Hb.
  destruct (fread_obj 4 _ _) as [sh hf]. cbn [snd] in Hb.
  destruct (sh =? hash_function key); cbn [negb]; [|discriminate].
  rewrite (fseek_set_ext hf (hash_file db))
    by (apply slot_offset4_nonneg || exact Hb).
  pose proof (fread_obj_range 8 (l_position u)
                (fseek_set
                   (fwrite (le_split 4 0)
                      (fseek_set (hash_file db) (hash_function key mod 128 * 4)))
                   (hash_function key mod 128 * 8 * 2))) as Hrange.
  destruct (fread_obj 8 (l_position u) _) as [position hf1]. cbn [fst snd] in *.
  destruct (fread_obj 8 (l_length u) hf1) as [len hf2]. cbn [fst].
  destruct (Z.eqb_spec
              (u64 (ftell (fseek_set (data_file db) (to_long (u64 (position + len))))
                    - u64 (position + len))) 0) as [Hrem|Hrem];
    cbn [negb].
  2: { intros _ _ Hsum. exfalso. apply Hrem. apply remaining_size_0.
       split; [apply Z.mod_pos_bound; lia|exact Hsum]. }
  rewrite Hrem.
  intros Hret Hpos _.
  apply (f_equal (fun r => match r with
                           | Some (_, d) => data_file d
                           | None => mkFILE [] 0
                           end)) in Hret.
  rewrite <- Hret. clear Hret Hrem.
  unfold fread_bytes. cbn [fst snd Z.to_nat firstn List.length fwrite data_file].
  assert (Hu : u64 (position + 0) = position)
    by (rewrite Z.add_0_r; apply Z.mod_small; lia).
  assert (Hl : to_long position = position) by (apply to_long_small; lia).
  rewrite Hu, Hl.
  unfold ftruncate.
  destruct (Z.ltb_spec position 0) as [Hneg|_]; [lia|].
  rewrite (fseek_set_nonneg _ position) by lia.
  unfold set_bytes, set_pos. cbn [f_bytes f_pos].
  now rewrite fseek_set_bytes.
Qed.

(** [db_delete] leaves the file of deleted blocks as it is. *)
Lemma db_delete_deleted_blocks (u : locals) (db db' : hdb) (key : list byte) (r : Z) :
  db_delete u db key = Some (r, db') -> deleted_blocks db' = deleted_blocks db.
Proof.
  unfold db_delete.
  destruct (fread_obj 4 _ _) as [sh hf].
  destruct (sh =? hash_function key); cbn [negb].
  - destruct (fread_obj 8 (l_position u) _) as [position hf1].
    destruct (fread_obj 8 (l_length u) hf1) as [len hf2].
    destruct (negb _);
      [destruct (l_refused u) as [df|]; [|discriminate]
      |destruct (fread_bytes _ _) as [buffer df]].
    all: intros Hret.
    all: apply (f_equal (fun o => match o with
                                  | Some (_, d) => deleted_blocks d
                                  | None => mkFILE [] 0
                                  end)) in Hret.
    all: symmetry; exact Hret.
  - intros Hret.
    apply (f_equal (fun o => match o with
                             | Some (_, d) => deleted_blocks d
                             | None => mkFILE [] 0
                             end)) in Hret.
    symmetry. exact Hret.
Qed.

(** [db_delete] of a key that it locates returns 0 whenever
    [position + length], as the directory gives them after the hash has
    been cleared, is an offset that [fseek] accepts: [remaining_size] is
    then 0. *)
Lemma db_delete_located_some (u : locals) (db : hdb) (key : list byte) :
  located u db key = true ->
  u64 (freed_position u db key + freed_length u db key) < 2 ^ 63 ->
  exists db', db_delete u db key = Some (0, db').
Proof.
  unfold db_delete, located, stored_hash, freed_position, freed_length.
  pose proof (stored_hash_file_bytes u db key) as Hb.
  destruct (fread_obj 4 _ _) as [sh hf]. cbn [snd fst] in *.
  intros Hloc. rewrite Hloc. cbn [negb].
  rewrite (fseek_set_ext hf (hash_file db))
    by (apply slot_offset4_nonneg || exact Hb).
  destruct (fread_obj 8 (l_position u) _) as [position hf1]. cbn [fst snd].
  destruct (fread_obj 8 (l_length u) hf1) as [len hf2]. cbn [fst].
  intros Hsum.
  assert (Hrem : u64 (ftell (fseek_set (data_file db) (to_long (u64 (position + len))))
                      - u64 (position + len)) = 0).
  { assert (H0 : 0 <= u64 (position + len))
      by (unfold u64; apply Z.mod_pos_bound; lia).
    rewrite to_long_small by lia.
    unfold ftell. rewrite fseek_set_pos by lia.
    now rewrite Z.sub_diag. }
  rewrite Hrem. cbn [Z.eqb negb].
  destruct (fread_bytes 0 _) as [buffer df].
  eexists. reflexivity.
Qed.

(** X6. [db_delete] of a key that it locates, where the recorded position
    and [position + length] are offsets that [fseek] accepts (below 2^63),
    returns 0 and leaves of the data file its first [position] bytes and
    nothing more (zero bytes are added where the file was shorter), with
    the stream at [position]: what followed the value is dropped, not
    moved. It has appended that position, as an [int], to the array of
    deleted blocks, and the file of deleted blocks is untouched. *)
Theorem db_delete_cuts_data_file (u : locals) (db : hdb) (key : list byte) :
  located u db key = true ->
  freed_position u db key < 2 ^ 63 ->
  u64 (freed_position u db key + freed_length u db key) < 2 ^ 63 ->
  exists db',
    db_delete u db key = Some (0, db')
    /\ f_bytes (data_file db')
       = resize (Z.to_nat (freed_position u db key)) (f_bytes (data_file db))
    /\ Z.of_nat (List.length (f_bytes (data_file db'))) = freed_position u db key
    /\ f_pos (data_file db') = freed_position u db key
    /\ deleted_blocks_array db'
       = deleted_blocks_array db ++ [to_int (freed_position u db key)]
    /\ deleted_blocks db' = deleted_blocks db.
Proof.
  intros Hloc Hpos Hsum.
  destruct (db_delete_located_some u db key Hloc Hsum) as [db' Hdel].
  exists db'. split; [exact Hdel|].
  pose proof (db_delete_data_file u db db' key Hdel Hpos Hsum) as Hdf.
  pose proof (fread_obj_range 8 (l_position u)
                (fseek_set
                   (fwrite (le_split 4 0)
                      (fseek_set (hash_file db) (hash_function key mod 128 * 4)))
                   (hash_function key mod 128 * 8 * 2))) as Hrange.
  fold (freed_position u db key) in Hrange.
  rewrite Hdf. cbn [f_bytes f_pos]. rewrite length_resize.
  split; [reflexivity|]. split; [lia|]. split; [reflexivity|].
  split; [exact (db_delete_appends u db db' key Hdel)|].
  exact (db_delete_deleted_blocks u db db' key 0 Hdel).
Qed.

(** [db_delete("h")] after the three puts of [session_three]: the data file
    ["AAAABBC"] is cut at 4, the value of ["b"] at 6 is gone. *)
Lemma db_delete_cuts_data_file_witness :
  exists db',
    db_delete zeroed (handle session_three) (str "h") = Some (0, db')
    /\ f_bytes (data_file db') = str "AAAA"
    /\ f_pos (data_file db') = 4
    /\ deleted_blocks_array db' = [4].
Proof.
  destruct (db_delete_cuts_data_file zeroed (handle session_three) (str "h"))
    as (db' & Hdel & Hbytes & _ & Hstream & Harr & _).
  - vm_compute; reflexivity.
  - vm_compute; reflexivity.
  - vm_compute; reflexivity.
  - exists db'. split; [exact Hdel|]. split; [|split].
    + rewrite Hbytes. vm_compute. reflexivity.
    + rewrite Hstream. vm_compute. reflexivity.
    + rewrite Harr. vm_compute. reflexivity.
Defined.

(** ** Reusing a deleted block *)

Lemma to_int_small (z : Z) : - 2 ^ 31 <= z < 2 ^ 31 -> to_int z = z.
Proof. intros Hz. unfold to_int. rewrite Z.mod_small; lia. Qed.

(** [put_record] with an entry to pop, where the stream of the data file
    stands at that entry: the value is read back. *)
Lemma put_record_get_reused (u' : locals) (db : hdb) (key value : list byte)
    (l : list Z) (x : Z) :
  deleted_blocks_array db = l ++ [x] ->
  slot key <> 0 ->
  Z.of_nat (List.length value) < 2 ^ 64 ->
  u64 x < 2 ^ 63 ->
  f_pos (data_file db) = u64 x ->
  fst (db_get u' (put_record db key value) key)
  = mkGet 0 value (Some (Z.of_nat (List.length value))).
Proof.
  intros Harr Hslot Hvalue Hx Hstream.
  assert (Hpp : put_position db = u64 x).
  { unfold put_position. now rewrite Harr, rev_unit. }
  destruct (put_record_directory u' db key value Hslot Hvalue)
    as (Hloc & Hpos & Hlen).
  rewrite db_get_located by (rewrite ?Hpos, ?Hpp; assumption).
  rewrite Hpos, Hlen, Hpp, (put_record_data_file db key value l x Harr).
  rewrite <- Hstream, slice_fwrite; [reflexivity|].
  rewrite Hstream. unfold u64. apply Z.mod_pos_bound. lia.
Qed.

(** X7. A put that pops an entry of the array of deleted blocks is read
    back by [db_get] where the stream of the data file stands at the popped
    offset (and the slot of the key is not 0): [db_put] does not seek, so
    this is the case in which the value lands where the directory says. *)
Theorem db_put_reuse_read_back (u ud u' : locals) (db : hdb)
    (key value : list byte) (l : list Z) (x : Z) :
  located u db key = false ->
  deleted_blocks_array db = l ++ [x] ->
  slot key <> 0 ->
  Z.of_nat (List.length value) < 2 ^ 64 ->
  u64 x < 2 ^ 63 ->
  f_pos (data_file db) = u64 x ->
  exists db',
    db_put u ud db key value = Some (0, db')
    /\ deleted_blocks_array db' = l
    /\ fst (db_get u' db' key) = mkGet 0 value (Some (Z.of_nat (List.length value))).
Proof.
  intros Hloc Harr Hslot Hvalue Hx Hstream.
  rewrite db_put_not_located by assumption.
  eexists. split; [reflexivity|]. split.
  - apply (put_record_pops u db key value l x Harr).
  - now apply (put_record_get_reused u' db key value l x).
Qed.

Lemma db_put_reuse_read_back_witness :
  exists db',
    db_put zeroed zeroed
      (handle (then_delete (str "b")
                 (then_put (str "b") (str "BB")
                    (then_put (str "a") (str "AA") opened))))
      (str "key1") (str "CC") = Some (0, db')
    /\ deleted_blocks_array db' = []
    /\ fst (db_get zeroed db' (str "key1")) = mkGet 0 (str "CC") (Some 2).
Proof.
  apply (db_put_reuse_read_back zeroed zeroed zeroed
           (handle (then_delete (str "b")
                      (then_put (str "b") (str "BB")
                         (then_put (str "a") (str "AA") opened))))
           (str "key1") (str "CC") [] 2).
  - vm_compute; reflexivity.
  - vm_compute; reflexivity.
  - vm_compute; discriminate.
  - vm_compute; reflexivity.
  - vm_compute; reflexivity.
  - vm_compute; reflexivity.
Defined.

(** After a delete that returns 0, for a position below 2^31 and a
    [position + length] that [fseek] accepts, [put_record] takes the block
    just freed. *)
Lemma put_record_after_delete (u u' : locals) (db db1 : hdb)
    (key key2 value : list byte) :
  db_delete u db key = Some (0, db1) ->
  freed_position u db key < 2 ^ 31 ->
  u64 (freed_position u db key + freed_length u db key) < 2 ^ 63 ->
  slot key2 <> 0 ->
  Z.of_nat (List.length value) < 2 ^ 64 ->
  fst (db_get u' (put_record db1 key2 value) key2)
  = mkGet 0 value (Some (Z.of_nat (List.length value)))
  /\ deleted_blocks_array (put_record db1 key2 value) = deleted_blocks_array db
  /\ f_bytes (data_file (put_record db1 key2 value))
     = resize (Z.to_nat (freed_position u db key)) (f_bytes (data_file db)) ++ value.
Proof.
  intros Hdel Hp Hsum Hslot Hvalue.
  pose proof (fread_obj_range 8 (l_position u)
                (fseek_set
                   (fwrite (le_split 4 0)
                      (fseek_set (hash_file db) (hash_function key mod 128 * 4)))
                   (hash_function key mod 128 * 8 * 2))) as Hrange.
  fold (freed_position u db key) in Hrange.
  assert (Hp63 : freed_position u db key < 2 ^ 63) by lia.
  pose proof (db_delete_data_file u db db1 key Hdel Hp63 Hsum) as Hdf.
  clear Hsum.
  set (p := freed_position u db key) in *.
  pose proof (db_delete_appends u db db1 key Hdel) as Harr. fold p in Harr.
  assert (Hint : to_int p = p) by (apply to_int_small; lia).
  assert (Hu64 : u64 p = p) by (apply Z.mod_small; lia).
  rewrite Hint in Harr.
  split; [|split].
  - apply (put_record_get_reused u' db1 key2 value (deleted_blocks_array db) p);
      try assumption.
    + lia.
    + rewrite Hdf. cbn [f_pos]. now rewrite Hu64.
  - apply (put_record_pops u' db1 key2 value _ p Harr).
  - rewrite (put_record_data_file db1 key2 value _ p Harr), Hdf.
    destruct value as [|b value']; [now rewrite app_nil_r|].
    rewrite fwrite_nonempty by discriminate. cbn [f_bytes f_pos].
    rewrite <- (length_resize (Z.to_nat p) (f_bytes (data_file db))) at 1.
    rewrite resize_all, skipn_all2 by (rewrite length_resize; lia).
    now rewrite app_nil_r.
Qed.

(** X8. A put of a key that is located (by [db_put] and by the
    [db_delete] it calls), in a slot other than 0, with a recorded position
    below 2^31 and a [position + length] that [fseek] accepts, returns 0
    and replaces the value: [db_get] then returns the new value and its
    length, the array of deleted blocks is what it was, and the data file
    is cut at the old position of the key and ends with the new value. *)
Theorem db_put_overwrites (u ud u' : locals) (db : hdb) (key value : list byte) :
  located u db key = true ->
  located ud db key = true ->
  slot key <> 0 ->
  freed_position ud db key < 2 ^ 31 ->
  u64 (freed_position ud db key + freed_length ud db key) < 2 ^ 63 ->
  Z.of_nat (List.length value) < 2 ^ 64 ->
  exists db',
    db_put u ud db key value = Some (0, db')
    /\ fst (db_get u' db' key) = mkGet 0 value (Some (Z.of_nat (List.length value)))
    /\ deleted_blocks_array db' = deleted_blocks_array db
    /\ f_bytes (data_file db')
       = resize (Z.to_nat (freed_position ud db key)) (f_bytes (data_file db)) ++ value.
Proof.
  intros Hu Hud Hslot Hp Hsum Hvalue.
  destruct (db_delete_located_some ud db key Hud Hsum) as [db1 Hdel].
  rewrite db_put_located by assumption.
  rewrite Hdel. eexists. split; [reflexivity|].
  now apply (put_record_after_delete ud u' db db1 key key value).
Qed.

Lemma db_put_overwrites_witness :
  exists db',
    db_put zeroed zeroed (handle session_a) (str "a") (str "ZZZ") = Some (0, db')
    /\ fst (db_get zeroed db' (str "a")) = mkGet 0 (str "ZZZ") (Some 3)
    /\ deleted_blocks_array db' = []
    /\ f_bytes (data_file db') = str "ZZZ".
Proof.
  apply (db_put_overwrites zeroed zeroed zeroed (handle session_a)
           (str "a") (str "ZZZ")).
  - vm_compute; reflexivity.
  - vm_compute; reflexivity.
  - vm_compute; discriminate.
  - vm_compute; reflexivity.
  - vm_compute; reflexivity.
  - vm_compute; reflexivity.
Defined.

(** X9. A put that follows a delete is read back. [db_delete] of a key
    that it locates, with a recorded position below 2^31 and a
    [position + length] that [fseek] accepts, returns 0; a put that
    follows, of a key that the delete has not left located and whose slot
    is not 0, returns 0, takes the block just freed and is read back by
    [db_get]: [db_delete] leaves the stream of the data file where it has
    cut the file. The array of deleted blocks is then what it was before
    the delete, and the data file is the file before the delete, cut at
    the freed position and followed by the new value. *)
Theorem db_put_after_delete (u u2 ud u' : locals) (db : hdb)
    (key key2 value : list byte) :
  located u db key = true ->
  freed_position u db key < 2 ^ 31 ->
  u64 (freed_position u db key + freed_length u db key) < 2 ^ 63 ->
  slot key2 <> 0 ->
  Z.of_nat (List.length value) < 2 ^ 64 ->
  exists db1,
    db_delete u db key = Some (0, db1)
    /\ (located u2 db1 key2 = false ->
        exists db2,
          db_put u2 ud db1 key2 value = Some (0, db2)
          /\ fst (db_get u' db2 key2)
             = mkGet 0 value (Some (Z.of_nat (List.length value)))
          /\ deleted_blocks_array db2 = deleted_blocks_array db
          /\ f_bytes (data_file db2)
             = resize (Z.to_nat (freed_position u db key)) (f_bytes (data_file db))
               ++ value).
Proof.
  intros Hlocated Hp Hsum Hslot Hvalue.
  destruct (db_delete_located_some u db key Hlocated Hsum) as [db1 Hdel].
  exists db1. split; [exact Hdel|]. intros Hloc.
  rewrite db_put_not_located by assumption.
  eexists. split; [reflexivity|].
  now apply (put_record_after_delete u u' db db1 key key2 value).
Qed.

(** [db_delete("a")] after the three puts of [session_three], and then
    [db_put("key1", "XY")]. *)
Lemma db_put_after_delete_witness :
  exists db1,
    db_delete zeroed (handle session_three) (str "a") = Some (0, db1)
    /\ exists db2,
         db_put zeroed zeroed db1 (str "key1") (str "XY") = Some (0, db2)
         /\ fst (db_get zeroed db2 (str "key1")) = mkGet 0 (str "XY") (Some 2)
         /\ deleted_blocks_array db2 = []
         /\ f_bytes (data_file db2) = str "XY".
Proof.
  destruct (db_put_after_delete zeroed zeroed zeroed zeroed (handle session_three)
              (str "a") (str "key1") (str "XY")) as (db1 & Hdel & Hput).
  - vm_compute; reflexivity.
  - vm_compute; reflexivity.
  - vm_compute; reflexivity.
  - vm_compute; discriminate.
  - vm_compute; reflexivity.
  - exists db1. split; [exact Hdel|].
    apply Hput.
    assert (Hdb1 : db_delete zeroed (handle session_three) (str "a")
                   = Some (0, handle session_three_deleted))
      by (vm_compute; reflexivity).
    rewrite Hdel in Hdb1. apply some_snd_inj in Hdb1. subst db1.
    vm_compute; reflexivity.
Defined.

(** ** What a put leaves of the other keys *)

Lemma fwrite_length_mono (bs : list byte) (f : FILE) :
  (List.length (f_bytes f) <= List.length (f_bytes (fwrite bs f)))%nat.
Proof.
  destruct bs as [|b bs]; [reflexivity|].
  rewrite fwrite_nonempty by discriminate. cbn [f_bytes].
  rewrite !length_app, length_resize, length_skipn. lia.
Qed.

(** A write leaves the bytes of the file that lie before it or after it. *)
Lemma slice_fwrite_apart (p n : Z) (bs : list byte) (f : FILE) :
  0 <= p -> 0 <= n -> 0 <= f_pos f ->
  p + n <= Z.of_nat (List.length (f_bytes f)) ->
  p + n <= f_pos f \/ f_pos f + Z.of_nat (List.length bs) <= p ->
  slice p n (f_bytes (fwrite bs f)) = slice p n (f_bytes f).
Proof.
  intros Hp Hn Hq Hlen Hapart.
  destruct bs as [|b bs]; [reflexivity|].
  rewrite fwrite_nonempty by discriminate. cbn [f_bytes].
  set (w := b :: bs) in *. set (old := f_bytes f) in *.
  set (q := Z.to_nat (f_pos f)).
  unfold slice. destruct Hapart as [Hbefore|Hafter].
  - rewrite firstn_skipn_app_l by (rewrite length_resize; lia).
    unfold resize.
    rewrite firstn_skipn_app_l by (rewrite length_firstn; lia).
    apply firstn_skipn_firstn; lia.
  - f_equal.
    rewrite skipn_app, length_resize.
    rewrite (@skipn_all2 _ _ (resize q old)) by (rewrite length_resize; lia).
    cbn [app]. rewrite skipn_app.
    rewrite (@skipn_all2 _ _ w) by lia.
    cbn [app]. rewrite skipn_skipn. f_equal. lia.
Qed.

Lemma fread_obj_slice (size : nat) (old : Z) (f : FILE) (p : Z) :
  0 <= p ->
  fread_obj size old (fseek_set f p)
  = (le_combine (slice p (Z.of_nat size) (f_bytes f)
                   ++ skipn (List.length (slice p (Z.of_nat size) (f_bytes f)))
                        (le_split size old)),
     mkFILE (f_bytes f)
       (p + Z.of_nat (List.length (slice p (Z.of_nat size) (f_bytes f))))).
Proof.
  intros Hp. rewrite fseek_set_nonneg by assumption. reflexivity.
Qed.






(** ** The array of deleted blocks between two sessions *)

Lemma to_int_range (z : Z) : is_int (to_int z).
Proof.
  unfold is_int, to_int.
  pose proof (Z.mod_pos_bound (z + 2 ^ 31) (2 ^ 32) ltac:(lia)). lia.
Qed.

Lemma le_split_to_int (z : Z) : le_split 4 (to_int z) = le_split 4 z.
Proof.
  rewrite (le_split_mod (to_int z)), (le_split_mod z). f_equal.
  change (2 ^ (Z.of_nat 4 * 8)) with (2 ^ 32). unfold to_int.
  rewrite Zminus_mod, Zmod_mod.
  change (2 ^ 31 mod 2 ^ 32) with (2 ^ 31).
  rewrite <- (Zmod_small (2 ^ 31) (2 ^ 32)) at 2 by lia.
  rewrite <- Zminus_mod. f_equal. lia.
Qed.

Lemma to_int_le_combine_split (x : Z) :
  is_int x -> to_int (le_combine (le_split 4 x)) = x.
Proof.
  unfold is_int. intros Hx. rewrite le_combine_split.
  change (2 ^ (Z.of_nat 4 * 8)) with (2 ^ 32). unfold to_int.
  rewrite Zplus_mod_idemp_l.
  rewrite Z.mod_small; lia.
Qed.

Lemma length_bytes_of_ints (a : list Z) :
  List.length (bytes_of_ints a) = (4 * List.length a)%nat.
Proof.
  unfold bytes_of_ints. induction a as [|x a IH]; [reflexivity|].
  cbn [flat_map]. rewrite length_app, length_le_split, IH. cbn [List.length]. lia.
Qed.

Lemma bytes_of_ints_app (a b : list Z) :
  bytes_of_ints (a ++ b) = bytes_of_ints a ++ bytes_of_ints b.
Proof. apply flat_map_app. Qed.

Lemma length_ints_of_bytes (n : nat) :
  forall bs, List.length (ints_of_bytes n bs) = n.
Proof.
  induction n as [|n IH]; intros bs; [reflexivity|].
  cbn [ints_of_bytes List.length]. now rewrite IH.
Qed.

Lemma ints_of_bytes_is_int (n : nat) :
  forall bs, Forall is_int (ints_of_bytes n bs).
Proof.
  induction n as [|n IH]; intros bs; cbn [ints_of_bytes]; constructor.
  - apply to_int_range.
  - apply IH.
Qed.

(** Decoding what was encoded gives the array back, whatever follows. *)
Lemma ints_of_bytes_app (a : list Z) (n : nat) (rest : list byte) :
  Forall is_int a ->
  ints_of_bytes (List.length a + n) (bytes_of_ints a ++ rest)
  = a ++ ints_of_bytes n rest.
Proof.
  induction 1 as [|x a Hx Ha IH]; [reflexivity|].
  cbn [List.length Nat.add ints_of_bytes]. unfold bytes_of_ints. cbn [flat_map].
  fold (bytes_of_ints a). rewrite <- app_assoc.
  rewrite firstn_app_exact, skipn_app_exact by apply length_le_split.
  rewrite to_int_le_combine_split by exact Hx.
  cbn [app]. now rewrite IH.
Qed.

(** Encoding what was decoded gives the bytes back. *)
Lemma bytes_of_ints_of_bytes (n : nat) :
  forall bs,
    (4 * n <= List.length bs)%nat ->
    bytes_of_ints (ints_of_bytes n bs) = firstn (4 * n) bs.
Proof.
  induction n as [|n IH]; intros bs Hlen; [reflexivity|].
  cbn [ints_of_bytes]. unfold bytes_of_ints. cbn [flat_map].
  fold (bytes_of_ints (ints_of_bytes n (skipn 4 bs))).
  rewrite IH by (rewrite length_skipn; lia).
  rewrite le_split_to_int, split_le_combine' by (rewrite length_firstn; lia).
  replace (4 * S n)%nat with (4 + 4 * n)%nat by lia.
  rewrite firstn_add_skipn, length_firstn.
  now replace (Nat.min 4 (List.length bs)) with 4%nat by lia.
Qed.

(** The array that [db_open] decodes. *)
Lemma db_open_array (d : disk) :
  deleted_blocks_array (db_open d)
  = ints_of_bytes
      (Z.to_nat (Z.of_nat (List.length (f_bytes (fopen (deleted_blocks_filename d)))) / 4))
      (firstn
         (Z.to_nat (Z.of_nat (List.length (f_bytes (fopen (deleted_blocks_filename d)))) / 4 * 4))
         (f_bytes (fopen (deleted_blocks_filename d)))).
Proof.
  unfold db_open, decode_deleted_blocks_array.
  cbn [deleted_blocks]. unfold fseek_end, ftell, set_pos. cbn [f_pos f_bytes].
  rewrite fseek_set_nonneg by lia. cbn [f_bytes].
  unfold fread_bytes. cbn [f_pos f_bytes Z.to_nat skipn deleted_blocks_array].
  reflexivity.
Qed.

Lemma db_open_files (d : disk) :
  f_bytes (hash_file (db_open d)) = f_bytes (fopen (hash_filename d))
  /\ f_bytes (data_file (db_open d)) = f_bytes (fopen (data_filename d))
  /\ f_bytes (deleted_blocks (db_open d)) = f_bytes (fopen (deleted_blocks_filename d)).
Proof.
  unfold db_open, decode_deleted_blocks_array.
  cbn [deleted_blocks]. unfold fseek_end, ftell, set_pos. cbn [f_pos f_bytes].
  rewrite fseek_set_nonneg by lia. cbn [f_bytes].
  unfold fread_bytes. cbn [f_pos f_bytes hash_file data_file deleted_blocks].
  repeat split.
Qed.

(** The three files that [db_close] leaves. *)
Lemma db_close_files (db : hdb) :
  db_close db
  = mkDisk (Some (f_bytes (hash_file db))) (Some (f_bytes (data_file db)))
      (Some (bytes_of_ints (deleted_blocks_array db)
             ++ skipn (4 * List.length (deleted_blocks_array db))
                  (f_bytes (deleted_blocks db)))).
Proof.
  unfold db_close, encode_deleted_blocks_array, set_deleted_blocks.
  cbn [hash_file data_file deleted_blocks].
  rewrite fseek_set_nonneg by lia.
  destruct (deleted_blocks_array db) as [|x a] eqn:Ea.
  - reflexivity.
  - rewrite fwrite_nonempty
      by (unfold bytes_of_ints; cbn [flat_map];
          intros Hnil; apply app_eq_nil in Hnil; destruct Hnil as [Hnil _];
          apply (f_equal (@List.length byte)) in Hnil;
          rewrite length_le_split in Hnil; discriminate).
    cbn [f_bytes f_pos Z.to_nat resize firstn Nat.sub repeat app Nat.add].
    now rewrite length_bytes_of_ints.
Qed.

(** [db_open] on a file of deleted blocks that holds an encoded array, and
    at most three bytes more, decodes that array. *)
Lemma db_open_decodes (d : disk) (l : list Z) (t : list byte) :
  deleted_blocks_filename d = Some (bytes_of_ints l ++ t) ->
  (List.length t < 4)%nat ->
  Forall is_int l ->
  deleted_blocks_array (db_open d) = l.
Proof.
  intros Hfile Ht Hl. rewrite db_open_array, Hfile. cbn [fopen f_bytes].
  rewrite length_app, length_bytes_of_ints.
  assert (Hn : Z.of_nat (4 * List.length l + List.length t) / 4
               = Z.of_nat (List.length l)).
  { symmetry. apply (Z.div_unique _ 4 _ (Z.of_nat (List.length t))); lia. }
  rewrite Hn, Nat2Z.id.
  replace (Z.to_nat (Z.of_nat (List.length l) * 4)) with (4 * List.length l)%nat by lia.
  rewrite firstn_app_exact by apply length_bytes_of_ints.
  pose proof (ints_of_bytes_app l 0 [] Hl) as Happ.
  rewrite Nat.add_0_r, !app_nil_r in Happ. exact Happ.
Qed.

(** What the file of deleted blocks holds after [db_close], for a file that
    held the array [old] when the array is [a]: [a], and the entries of
    [old] beyond the length of [a]. *)
Lemma closed_deleted_blocks (a old : list Z) (tail : list byte) :
  (List.length tail < 4)%nat ->
  exists t,
    (List.length t < 4)%nat
    /\ bytes_of_ints a ++ skipn (4 * List.length a) (bytes_of_ints old ++ tail)
       = bytes_of_ints (a ++ skipn (List.length a) old) ++ t.
Proof.
  intros Ht.
  destruct (Nat.le_gt_cases (List.length a) (List.length old)) as [Hle|Hgt].
  - exists tail. split; [exact Ht|].
    rewrite <- (firstn_skipn (List.length a) old) at 1.
    rewrite !bytes_of_ints_app, <- !app_assoc.
    rewrite skipn_app_exact
      by (rewrite length_bytes_of_ints, length_firstn; lia).
    reflexivity.
  - exists []. split; [cbn [List.length]; lia|].
    rewrite (@skipn_all2 _ _ (bytes_of_ints old ++ tail))
      by (rewrite length_app, length_bytes_of_ints; lia).
    rewrite (@skipn_all2 _ _ old) by lia.
    now rewrite !app_nil_r.
Qed.

Lemma Forall_skipn {P : Z -> Prop} (n : nat) :
  forall l, Forall P l -> Forall P (skipn n l).
Proof.
  induction n as [|n IH]; intros l Hl; [exact Hl|].
  destruct Hl as [|x l Hx Hl]; [constructor|]. cbn [skipn]. now apply IH.
Qed.

(** X11. A session that makes no call leaves the three files with the bytes
    they had; a file that did not exist is created empty. [db_close] writes
    back the array that [db_open] has decoded, over the bytes it was
    decoded from. *)
Theorem db_close_db_open_files (d : disk) :
  db_close (db_open d)
  = mkDisk (Some (f_bytes (fopen (hash_filename d))))
           (Some (f_bytes (fopen (data_filename d))))
           (Some (f_bytes (fopen (deleted_blocks_filename d)))).
Proof.
  rewrite db_close_files.
  destruct (db_open_files d) as (Hh & Hd & Hb). rewrite Hh, Hd, Hb.
  do 2 f_equal. rewrite db_open_array.
  set (b := f_bytes (fopen (deleted_blocks_filename d))).
  set (n := Z.to_nat (Z.of_nat (List.length b) / 4)).
  assert (Hn : (4 * n <= List.length b)%nat).
  { unfold n. pose proof (Z.mul_div_le (Z.of_nat (List.length b)) 4 ltac:(lia)).
    pose proof (Z.div_pos (Z.of_nat (List.length b)) 4 ltac:(lia) ltac:(lia)). lia. }
  replace (Z.to_nat (Z.of_nat (List.length b) / 4 * 4)) with (4 * n)%nat
    by (unfold n;
        pose proof (Z.div_pos (Z.of_nat (List.length b)) 4 ltac:(lia) ltac:(lia)); lia).
  rewrite length_ints_of_bytes.
  rewrite bytes_of_ints_of_bytes by (rewrite length_firstn; lia).
  rewrite firstn_firstn, Nat.min_id.
  apply firstn_skipn.
Qed.

(** X12. The array of deleted blocks that a second session decodes: the
    array at [db_close], followed by the entries that the array of the
    first session had at [db_open] beyond that length. [db_close] writes
    the array at the start of the file and does not cut the file, and
    [db_put] and [db_delete] do not write to it: the offsets that [db_put]
    has popped and reused are in the array again after a reopen. *)
Theorem reopen_deleted_blocks (d : disk) (db : hdb) :
  f_bytes (deleted_blocks db) = f_bytes (deleted_blocks (db_open d)) ->
  Forall is_int (deleted_blocks_array db) ->
  deleted_blocks_array (db_open (db_close db))
  = deleted_blocks_array db
    ++ skipn (List.length (deleted_blocks_array db)) (deleted_blocks_array (db_open d)).
Proof.
  intros Hfile Ha.
  destruct (db_open_files d) as (_ & _ & Hb). rewrite Hb in Hfile.
  set (b := f_bytes (fopen (deleted_blocks_filename d))) in *.
  set (n := Z.to_nat (Z.of_nat (List.length b) / 4)).
  pose proof (Z.mul_div_le (Z.of_nat (List.length b)) 4 ltac:(lia)) as Hle.
  pose proof (Z.div_pos (Z.of_nat (List.length b)) 4 ltac:(lia) ltac:(lia)) as H0.
  pose proof (Z.mul_succ_div_gt (Z.of_nat (List.length b)) 4 ltac:(lia)) as Hgt.
  assert (Hn : (4 * n <= List.length b)%nat) by (unfold n; lia).
  assert (Hold : deleted_blocks_array (db_open d) = ints_of_bytes n (firstn (4 * n) b)).
  { rewrite db_open_array. fold b. fold n. f_equal. f_equal. unfold n. lia. }
  assert (Hbytes : b = bytes_of_ints (deleted_blocks_array (db_open d)) ++ skipn (4 * n) b).
  { rewrite Hold, bytes_of_ints_of_bytes by (rewrite length_firstn; lia).
    rewrite firstn_firstn, Nat.min_id. symmetry. apply firstn_skipn. }
  assert (Htail : (List.length (skipn (4 * n) b) < 4)%nat)
    by (rewrite length_skipn; unfold n; lia).
  assert (Hint : Forall is_int (deleted_blocks_array (db_open d)))
    by (rewrite Hold; apply ints_of_bytes_is_int).
  destruct (closed_deleted_blocks (deleted_blocks_array db)
              (deleted_blocks_array (db_open d)) (skipn (4 * n) b) Htail)
    as (t & Ht & Hclosed).
  apply (db_open_decodes (db_close db) _ t).
  - rewrite db_close_files. cbn [deleted_blocks_filename].
    rewrite Hfile. rewrite Hbytes at 1. now rewrite Hclosed.
  - exact Ht.
  - apply Forall_app. split; [exact Ha|now apply Forall_skipn].
Qed.

(** The second session of [session_reused] has decoded [[2]] and its put
    has popped it; a third session finds [[2]] again. *)
Lemma reopen_deleted_blocks_witness :
  deleted_blocks_array (handle session_reused) = []
  /\ deleted_blocks_array (db_open (db_close (handle session_reused))) = [2].
Proof.
  assert (Ha : deleted_blocks_array (handle session_reused) = [])
    by (vm_compute; reflexivity).
  split; [exact Ha|].
  rewrite (reopen_deleted_blocks
             (db_close (handle (then_delete (str "b")
                                  (then_put (str "b") (str "BB")
                                     (then_put (str "a") (str "AA") opened)))))
             (handle session_reused)).
  - vm_compute; reflexivity.
  - vm_compute; reflexivity.
  - rewrite Ha. constructor.
Defined.

(** ** A put that lasts *)

(** X13. A put of a key that is not located, in a slot other than 0 and
    with no deleted block to reuse, returns 0 and is read back, in the
    same session and in the next one: [db_get] returns the bytes of the
    value and its length, also after [db_close] and [db_open] on the same
    paths. *)
Theorem put_reopen_get (u ud u' : locals) (db : hdb) (key value : list byte) :
  located u db key = false ->
  deleted_blocks_array db = [] ->
  slot key <> 0 ->
  Z.of_nat (List.length (f_bytes (data_file db))) < 2 ^ 63 ->
  Z.of_nat (List.length value) < 2 ^ 64 ->
  exists db',
    db_put u ud db key value = Some (0, db')
    /\ fst (db_get u' db' key)
       = mkGet 0 value (Some (Z.of_nat (List.length value)))
    /\ fst (db_get u' (db_open (db_close db')) key)
       = mkGet 0 value (Some (Z.of_nat (List.length value))).
Proof.
  intros Hloc Harr Hslot Hdata Hvalue.
  destruct (put_then_get u ud u' db key value Hloc Harr Hslot Hdata Hvalue)
    as (db' & Hput & Hget).
  exists db'. split; [exact Hput|]. split; [exact Hget|].
  rewrite reopen_same_get; [exact Hget|]. intros _.
  rewrite db_put_not_located in Hput by assumption.
  apply some_snd_inj in Hput. subst db'.
  destruct (put_record_directory u' db key value Hslot Hvalue)
    as (_ & Hpos & Hlen).
  destruct (put_record_hash_file db key value Harr) as [_ Hdf].
  rewrite Hpos, Hlen, Hdf, fwrite_at_end, length_app.
  unfold put_position. rewrite Harr. cbn [rev].
  unfold u64. rewrite Z.mod_small; lia.
Qed.

Lemma put_reopen_get_witness :
  exists db',
    db_put zeroed zeroed (handle session_a) (str "h") (str "BB") = Some (0, db')
    /\ fst (db_get zeroed db' (str "h")) = mkGet 0 (str "BB") (Some 2)
    /\ fst (db_get zeroed (db_open (db_close db')) (str "h"))
       = mkGet 0 (str "BB") (Some 2).
Proof.
  apply (put_reopen_get zeroed zeroed zeroed (handle session_a) (str "h") (str "BB")).
  - vm_compute; reflexivity.
  - vm_compute; reflexivity.
  - vm_compute; discriminate.
  - vm_compute; reflexivity.
  - vm_compute; reflexivity.
Defined.

(** ** Slots that overlap *)

Lemma slice_slice (p m k n : Z) (bs : list byte) :
  0 <= p -> 0 <= k -> 0 <= n -> k + n <= m ->
  slice (p + k) n bs = slice k n (slice p m bs).
Proof.
  intros Hp Hk Hn Hm. unfold slice.
  rewrite skipn_firstn_comm, skipn_skipn, firstn_firstn.
  replace (Nat.min (Z.to_nat n) (Z.to_nat m - Z.to_nat k)) with (Z.to_nat n) by lia.
  now replace (Z.to_nat k + Z.to_nat p)%nat with (Z.to_nat (p + k)) by lia.
Qed.

(** The hash that the three functions read for [key'] after [put_record]
    of a key whose position field starts where the hash field of [key']
    is: the low 32 bits of the position. *)
Lemma put_record_stored_hash (u' : locals) (db : hdb) (key value key' : list byte) :
  slot key' = 4 * slot key ->
  stored_hash u' (put_record db key value) key' = u32 (put_position db).
Proof.
  unfold slot. intros Hslots.
  pose proof (put_record_hash_file_any db key value) as Hhf.
  pose proof (put_position_range db) as Hpp.
  pose proof (Z.mod_pos_bound (hash_function key) 128 ltac:(lia)) as Hs.
  set (s := hash_function key mod 128) in *.
  set (H := le_split 4 (hash_function key)) in *.
  set (P := le_split 8 (put_position db)) in *.
  set (L := le_split 8 (Z.of_nat (List.length value))) in *.
  set (hf1 := fwrite H (fseek_set (hash_file db) (s * 4))) in *.
  set (f0 := fseek_set hf1 (s * 8 * 2)) in *.
  assert (HlenP : List.length P = 8%nat) by apply length_le_split.
  assert (Hf0 : f_pos f0 = s * 16) by (unfold f0; rewrite fseek_set_pos; lia).
  assert (Hlen : s * 16 + 8 <= Z.of_nat (List.length (f_bytes (fwrite P f0)))).
  { pose proof (fwrite_length P f0 ltac:(discriminate)) as Hl. lia. }
  unfold stored_hash. rewrite Hslots.
  rewrite fread_obj_slice by lia. cbn [fst].
  assert (Hslice : slice (4 * s * 4) (Z.of_nat 4)
                     (f_bytes (hash_file (put_record db key value)))
                   = firstn 4 P).
  { rewrite Hhf. change (Z.of_nat 4) with 4.
    rewrite slice_fwrite_apart by (rewrite ?fwrite_pos, ?HlenP; lia).
    replace (4 * s * 4) with (f_pos f0 + 0) by lia.
    rewrite (slice_slice (f_pos f0) 8 0 4) by lia.
    change 8 with (Z.of_nat 8) at 1. rewrite <- HlenP at 1.
    rewrite slice_fwrite by lia.
    unfold slice. cbn [Z.to_nat skipn]. reflexivity. }
  rewrite Hslice.
  rewrite length_firstn, HlenP. cbn [Nat.min].
  rewrite (@skipn_all2 _ _ (le_split 4 (l_stored_hash u')))
    by (rewrite length_le_split; lia).
  rewrite app_nil_r, le_combine_firstn. unfold P. rewrite le_combine_split.
  change (2 ^ (Z.of_nat 8 * 8)) with (2 ^ 64).
  change (2 ^ (8 * Z.of_nat 4)) with (2 ^ 32).
  unfold u32. apply Z.mod_mod_divide.
  exists (2 ^ 32). reflexivity.
Qed.

(** X14. A put of a key in slot [s] writes the position over the hash field
    of slot [4 * s]: a key of that slot is not found afterwards, unless its
    hash is the low 32 bits of that position. For slot 0 the key hides
    itself. *)
Theorem db_put_hides_overlapped_slot (u ud u' : locals) (db : hdb)
    (key value key' : list byte) :
  located u db key = false ->
  slot key' = 4 * slot key ->
  hash_function key' <> u32 (put_position db) ->
  exists db',
    db_put u ud db key value = Some (0, db')
    /\ fst (db_get u' db' key') = mkGet (-1) [] None.
Proof.
  intros Hloc Hslots Hne.
  rewrite db_put_not_located by assumption.
  eexists. split; [reflexivity|].
  rewrite db_get_unfold. unfold located.
  rewrite (put_record_stored_hash u' db key value key' Hslots).
  destruct (Z.eqb_spec (u32 (put_position db)) (hash_function key'));
    [congruence|reflexivity].
Qed.

(** ["P"] (slot 16) is put and then ["4"] (slot 4): ["P"] is found before
    the second put and not after it. *)
Lemma db_put_hides_overlapped_slot_witness :
  fst (db_get zeroed (handle (then_put (str "P") (str "V") opened)) (str "P"))
  = mkGet 0 (str "V") (Some 1)
  /\ exists db',
       db_put zeroed zeroed (handle (then_put (str "P") (str "V") opened))
         (str "4") (str "W") = Some (0, db')
       /\ fst (db_get zeroed db' (str "P")) = mkGet (-1) [] None.
Proof.
  split; [vm_compute; reflexivity|].
  apply (db_put_hides_overlapped_slot zeroed zeroed zeroed
           (handle (then_put (str "P") (str "V") opened))
           (str "4") (str "W") (str "P")).
  - vm_compute; reflexivity.
  - vm_compute; reflexivity.
  - vm_compute; discriminate.
Defined.

(** ** Keys whose hash is 0 *)

(** An object read where the file holds zero bytes. *)
Lemma fread_obj_zeros (size : nat) (old : Z) (f : FILE) (p : Z) :
  0 <= p ->
  slice p (Z.of_nat size) (f_bytes f) = repeat Byte.x00 size ->
  fread_obj size old (fseek_set f p) = (0, fseek_set f (p + Z.of_nat size)).
Proof.
  intros Hp Hz. rewrite fread_obj_slice by exact Hp. rewrite Hz, repeat_length.
  rewrite (@skipn_all2 _ _ (le_split size old)) by (rewrite length_le_split; lia).
  rewrite app_nil_r, le_combine_0, fseek_set_nonneg by lia. reflexivity.
Qed.

(** The three fields of slot 0 where the directory starts with 16 zero
    bytes. *)
Lemma zero_directory_fields (u : locals) (hf : FILE) :
  slice 0 16 (f_bytes hf) = repeat Byte.x00 16 ->
  fread_obj 4 (l_stored_hash u) (fseek_set hf 0) = (0, fseek_set hf 4)
  /\ fread_obj 8 (l_position u) (fseek_set hf 0) = (0, fseek_set hf 8)
  /\ fread_obj 8 (l_length u) (fseek_set hf 8) = (0, fseek_set hf 16).
Proof.
  intros Hz.
  assert (Hs : forall k n, 0 <= k -> 0 <= n -> k + n <= 16 ->
                 slice k n (f_bytes hf) = slice k n (repeat Byte.x00 16)).
  { intros k n Hk Hn Hkn.
    change k with (0 + k). rewrite (slice_slice 0 16 k n) by lia.
    now rewrite Hz. }
  split; [|split].
  - apply (fread_obj_zeros 4 _ hf 0); [lia|]. now rewrite Hs by (cbn; lia).
  - apply (fread_obj_zeros 8 _ hf 0); [lia|]. now rewrite Hs by (cbn; lia).
  - apply (fread_obj_zeros 8 _ hf 8); [lia|]. now rewrite Hs by (cbn; lia).
Qed.

Lemma zero_directory_located (u : locals) (db : hdb) (key : list byte) :
  hash_function key = 0 ->
  slice 0 16 (f_bytes (hash_file db)) = repeat Byte.x00 16 ->
  located u db key = true.
Proof.
  intros Hk Hz. unfold located, stored_hash. rewrite Hk.
  change (0 mod 128 * 4) with 0.
  destruct (zero_directory_fields u (hash_file db) Hz) as (Hh & _ & _).
  now rewrite Hh.
Qed.

(** X15. A key whose hash is 0 (the empty key, a key of zero bytes) is
    found in every database whose directory starts with 16 zero bytes,
    whether it was put or not: [db_get] returns 0 with length 0 and stores
    no byte. The hash 0 is also what marks a slot as empty. *)
Theorem db_get_hash_zero (u : locals) (db : hdb) (key : list byte) :
  hash_function key = 0 ->
  slice 0 16 (f_bytes (hash_file db)) = repeat Byte.x00 16 ->
  fst (db_get u db key) = mkGet 0 [] (Some 0).
Proof.
  intros Hk Hz.
  destruct (zero_directory_fields u (hash_file db) Hz) as (_ & Hp & Hl).
  assert (Hpos : recorded_position u db key = 0).
  { unfold recorded_position. rewrite Hk. change (0 mod 128 * 8 * 2) with 0.
    now rewrite Hp. }
  assert (Hlen : recorded_length u db key = 0).
  { unfold recorded_length. rewrite Hk. change (0 mod 128 * 8 * 2) with 0.
    rewrite Hp. cbn [snd]. now rewrite Hl. }
  rewrite db_get_located
    by (first [now apply zero_directory_located | rewrite Hpos; lia]).
  rewrite Hpos, Hlen. reflexivity.
Qed.

(** The empty key after [db_put("a", "AA")] in a first session. *)
Lemma db_get_hash_zero_witness :
  fst (db_get zeroed (handle session_a) []) = mkGet 0 [] (Some 0).
Proof.
  apply (db_get_hash_zero zeroed (handle session_a) []).
  - vm_compute; reflexivity.
  - vm_compute; reflexivity.
Defined.

(** X16. [db_delete] of a key whose hash is 0, in a database whose
    directory starts with 16 zero bytes, returns 0 and leaves the data file
    empty: it reads position 0 and length 0 in the zero bytes, cuts the
    data file there and appends 0 to the array of deleted blocks. *)
Theorem db_delete_hash_zero (u : locals) (db : hdb) (key : list byte) :
  hash_function key = 0 ->
  slice 0 16 (f_bytes (hash_file db)) = repeat Byte.x00 16 ->
  exists db',
    db_delete u db key = Some (0, db')
    /\ f_bytes (data_file db') = []
    /\ deleted_blocks_array db' = deleted_blocks_array db ++ [0].
Proof.
  intros Hk Hz.
  pose proof (zero_directory_located u db key Hk Hz) as Hloc.
  set (hf := fwrite (le_split 4 0) (fseek_set (hash_file db) 0)).
  assert (Hz' : slice 0 16 (f_bytes hf) = repeat Byte.x00 16).
  { assert (H12 : firstn 12 (skipn 4 (f_bytes (hash_file db))) = repeat Byte.x00 12).
    { pose proof (slice_slice 0 16 4 12 (f_bytes (hash_file db))) as E.
      rewrite Hz in E. apply E; lia. }
    unfold hf. rewrite fwrite_nonempty, fseek_set_nonneg by (lia || discriminate).
    cbn [f_bytes f_pos]. rewrite length_le_split.
    change (Z.to_nat 0 + 4)%nat with 4%nat.
    set (tl := skipn 4 (f_bytes (hash_file db))) in *.
    unfold slice, resize.
    change (Z.to_nat 0) with 0%nat. change (Z.to_nat 16) with (4 + 12)%nat.
    cbn [firstn Nat.sub repeat app skipn].
    rewrite firstn_add_skipn, firstn_app_exact by apply length_le_split.
    rewrite skipn_app_exact by reflexivity.
    rewrite H12. reflexivity. }
  destruct (zero_directory_fields u hf Hz') as (_ & Hp & Hl).
  assert (Hpos : freed_position u db key = 0).
  { unfold freed_position. rewrite Hk.
    change (0 mod 128 * 4) with 0. change (0 mod 128 * 8 * 2) with 0.
    fold hf. now rewrite Hp. }
  assert (Hlen : freed_length u db key = 0).
  { unfold freed_length. rewrite Hk.
    change (0 mod 128 * 4) with 0. change (0 mod 128 * 8 * 2) with 0.
    fold hf. rewrite Hp. cbn [snd]. now rewrite Hl. }
  destruct (db_delete_located_some u db key Hloc) as [db' Hdel].
  { rewrite Hpos, Hlen. reflexivity. }
  exists db'. split; [exact Hdel|]. split.
  - rewrite (db_delete_data_file u db db' key Hdel)
      by (rewrite ?Hpos, ?Hlen; reflexivity).
    rewrite Hpos. reflexivity.
  - rewrite (db_delete_appends u db db' key Hdel), Hpos. reflexivity.
Qed.

(** [db_delete] of the key of one zero byte after the three puts of
    [session_three]: the three values are gone. *)
Lemma db_delete_hash_zero_witness :
  f_bytes (data_file (handle session_three)) = str "AAAABBC"
  /\ exists db',
       db_delete zeroed (handle session_three) [Byte.x00] = Some (0, db')
       /\ f_bytes (data_file db') = []
       /\ deleted_blocks_array db' = [0].
Proof.
  split; [vm_compute; reflexivity|].
  apply (db_delete_hash_zero zeroed (handle session_three) [Byte.x00]).
  - vm_compute; reflexivity.
  - vm_compute; reflexivity.
Defined.

(** ** A deleted key is not found *)

(** The stream after [fread] of an object: the same bytes, and a position
    that has moved by the bytes read. *)
Lemma fread_obj_stream (size : nat) (old : Z) (f : FILE) :
  f_bytes (snd (fread_obj size old f)) = f_bytes f
  /\ f_pos (snd (fread_obj size old f))
     = f_pos f
       + Z.of_nat (Nat.min size (List.length (f_bytes f) - Z.to_nat (f_pos f))).
Proof.
  unfold fread_obj, fread_bytes. cbn [snd f_bytes f_pos set_pos].
  unfold set_pos. cbn [f_bytes f_pos].
  split; [reflexivity|].
  now rewrite length_firstn, length_skipn, Nat2Z.id.
Qed.

(** The loop of [db_delete] passes over words that are zero. *)
Lemma update_loop_skips_zeros (k : nat) :
  forall (n : nat) (position length th tp tl : Z) (bs : list byte) (p : Z),
    0 <= p ->
    slice p (4 * Z.of_nat k) bs = repeat Byte.x00 (4 * k) ->
    (k <= n)%nat ->
    exists th',
      update_loop n position length th tp tl (mkFILE bs p)
      = update_loop (n - k) position length th' tp tl
          (mkFILE bs (p + 4 * Z.of_nat k)).
Proof.
  induction k as [|k IH]; intros n position length th tp tl bs p Hp Hz Hk.
  - exists th. rewrite Nat.sub_0_r. do 2 f_equal. lia.
  - destruct n as [|n]; [lia|].
    assert (H4 : slice p (Z.of_nat 4) bs = repeat Byte.x00 4).
    { replace p with (p + 0) by lia.
      rewrite (slice_slice p (4 * Z.of_nat (S k)) 0 (Z.of_nat 4)) by lia.
      rewrite Hz. unfold slice. cbn [Z.to_nat skipn].
      replace (4 * S k)%nat with (4 + 4 * k)%nat by lia.
      rewrite repeat_app, firstn_app_exact by apply repeat_length.
      reflexivity. }
    assert (Hrest : slice (p + 4) (4 * Z.of_nat k) bs = repeat Byte.x00 (4 * k)).
    { rewrite (slice_slice p (4 * Z.of_nat (S k)) 4 (4 * Z.of_nat k)) by lia.
      rewrite Hz. unfold slice.
      replace (4 * S k)%nat with (4 + 4 * k)%nat by lia.
      rewrite repeat_app, skipn_app_exact by apply repeat_length.
      apply firstn_all2. rewrite repeat_length. lia. }
    destruct (IH n position length 0 tp tl bs (p + 4) ltac:(lia) Hrest ltac:(lia))
      as [th' Hloop].
    exists th'. cbn [update_loop].
    pose proof (fread_obj_zeros 4 th (mkFILE bs p) p Hp H4) as Hread.
    rewrite !fseek_set_nonneg in Hread by lia. cbn [f_bytes] in Hread.
    rewrite Hread. cbv beta iota. change (0 =? 0) with true. cbv iota.
    change (Z.of_nat 4) with 4. rewrite Hloop.
    cbn [Nat.sub]. do 2 f_equal. lia.
Qed.

(** The loop of [db_delete] writes 16 bytes before the position it has
    reached: from a position [p] on it leaves the bytes below [p + 4]
    alone, and the bytes more than 16 before the end of the file where it
    meets the end. *)
Lemma update_loop_keeps_prefix (n : nat) :
  forall (position length th tp tl : Z) (hf : FILE) (B : Z),
    0 <= f_pos hf -> 0 <= B -> B <= f_pos hf + 4 ->
    B + 16 <= Z.of_nat (List.length (f_bytes hf)) ->
    slice 0 B (f_bytes (update_loop n position length th tp tl hf))
    = slice 0 B (f_bytes hf).
Proof.
  induction n as [|n IH]; intros position length th tp tl hf B Hp HB HBp HBl;
    [reflexivity|].
  cbn [update_loop].
  destruct (fread_obj_stream 4 th hf) as [Hb1 Hp1].
  destruct (fread_obj 4 th hf) as [th1 hf1]. cbn [snd] in Hb1, Hp1.
  destruct (th1 =? 0).
  { rewrite IH by (rewrite ?Hb1; lia). now rewrite Hb1. }
  destruct (fread_obj_stream 8 tp hf1) as [Hb2 Hp2].
  destruct (fread_obj 8 tp hf1) as [tp2 hf2]. cbn [snd] in Hb2, Hp2.
  destruct (fread_obj_stream 8 tl hf2) as [Hb3 Hp3].
  destruct (fread_obj 8 tl hf2) as [tl3 hf3]. cbn [snd] in Hb3, Hp3.
  rewrite Hb2, Hb1 in Hb3. rewrite Hb1 in Hp2. rewrite Hb2, Hb1 in Hp3.
  destruct (tp2 >? position).
  2: { rewrite IH by (rewrite ?Hb3; lia). now rewrite Hb3. }
  change (to_long (u64 (-2 * 8))) with (-16).
  assert (Ht : B <= f_pos hf3 + -16) by lia.
  unfold fseek_cur at 2.
  destruct (Z.ltb_spec (f_pos hf3 + -16) 0) as [Hneg|_]; [lia|].
  set (w := fwrite (le_split 8 (u64 (tp2 - length))) (set_pos hf3 (f_pos hf3 + -16))).
  assert (Hw : slice 0 B (f_bytes w) = slice 0 B (f_bytes hf)).
  { unfold w. rewrite slice_fwrite_apart; unfold set_pos; cbn [f_bytes f_pos];
      rewrite ?Hb3; try lia; reflexivity. }
  assert (Hwl : (List.length (f_bytes hf) <= List.length (f_bytes w))%nat).
  { unfold w.
    pose proof (fwrite_length_mono (le_split 8 (u64 (tp2 - length)))
                  (set_pos hf3 (f_pos hf3 + -16))) as Hm.
    unfold set_pos in Hm at 1. cbn [f_bytes] in Hm. rewrite Hb3 in Hm. exact Hm. }
  assert (Hwp : f_pos w = f_pos hf3 - 8).
  { unfold w. rewrite fwrite_pos, length_le_split. unfold set_pos. cbn [f_pos]. lia. }
  unfold fseek_cur.
  destruct (Z.ltb_spec (f_pos w + 8) 0) as [Hneg|_]; [lia|].
  rewrite IH by (unfold set_pos; cbn [f_bytes f_pos]; lia).
  unfold set_pos. cbn [f_bytes]. exact Hw.
Qed.

Lemma some_hash_file (r r' : Z) (hf df dbl : FILE) (a : list Z) (db' : hdb) :
  Some (r, mkHdb hf df dbl a) = Some (r', db') -> hash_file db' = hf.
Proof. intros H. apply some_snd_inj in H. now subst db'. Qed.

(** The directory that a delete that returns 0 leaves: what the loop makes
    of the directory in which the hash of the key has been cleared. *)
Lemma db_delete_hash_file (u : locals) (db db' : hdb) (key : list byte) :
  db_delete u db key = Some (0, db') ->
  located u db key = true ->
  hash_file db'
  = update_loop 128 (freed_position u db key) (freed_length u db key)
      (l_temp_hash u) (l_temp_position u) (l_temp_length u)
      (mkFILE (f_bytes (fwrite (le_split 4 0)
                          (fseek_set (hash_file db) (hash_function key mod 128 * 4))))
              0).
Proof.
  unfold db_delete, located, stored_hash, freed_position, freed_length.
  pose proof (stored_hash_file_bytes u db key) as Hb.
  destruct (fread_obj 4 _ _) as [sh hf]. cbn [snd fst] in *.
  intros Hret Hloc. revert Hret. rewrite Hloc. cbn [negb].
  rewrite (fseek_set_ext hf (hash_file db))
    by (apply slot_offset4_nonneg || exact Hb).
  destruct (fread_obj_stream 8 (l_position u)
              (fseek_set
                 (fwrite (le_split 4 0)
                    (fseek_set (hash_file db) (hash_function key mod 128 * 4)))
                 (hash_function key mod 128 * 8 * 2))) as [Hb1 _].
  destruct (fread_obj 8 (l_position u) _) as [position hf1]. cbn [fst snd] in *.
  destruct (fread_obj_stream 8 (l_length u) hf1) as [Hb2 _].
  destruct (fread_obj 8 (l_length u) hf1) as [len hf2]. cbn [fst snd] in *.
  rewrite Hb1, fseek_set_bytes in Hb2.
  destruct (negb _);
    [destruct (l_refused u) as [df|]; [|discriminate]
    |destruct (fread_bytes _ _) as [buffer df]].
  all: rewrite (fseek_set_nonneg hf2 0) by lia.
  all: rewrite Hb2.
  all: intros Hret; exact (some_hash_file _ _ _ _ _ _ _ Hret).
Qed.

(** X17. A key that [db_delete] has deleted is not found: where the
    directory holds only zero bytes before the hash field of the key (no
    key of a lower slot is stored), the slot of the key is not 0 and the
    directory reaches 20 bytes past the start of that hash field,
    [db_delete] of a located key returns 0 and [db_get] of the key then
    returns -1. The loop that rewrites the positions writes behind the
    first word that is not zero, and so not into the hash field that was
    cleared. *)
Theorem db_delete_then_get (u u' : locals) (db : hdb) (key : list byte) :
  located u db key = true ->
  slot key <> 0 ->
  slice 0 (4 * slot key) (f_bytes (hash_file db))
  = repeat Byte.x00 (Z.to_nat (4 * slot key)) ->
  4 * slot key + 20 <= Z.of_nat (List.length (f_bytes (hash_file db))) ->
  u64 (freed_position u db key + freed_length u db key) < 2 ^ 63 ->
  exists db',
    db_delete u db key = Some (0, db')
    /\ fst (db_get u' db' key) = mkGet (-1) [] None.
Proof.
  unfold slot. intros Hloc Hslot Hzero Hlen Hsum.
  destruct (db_delete_located_some u db key Hloc Hsum) as [db' Hdel].
  exists db'. split; [exact Hdel|].
  pose proof (db_delete_hash_file u db db' key Hdel Hloc) as Hhf.
  pose proof (Z.mod_pos_bound (hash_function key) 128 ltac:(lia)) as Hs.
  pose proof (hash_function_range key) as Hrange.
  set (s := hash_function key mod 128) in *.
  set (cleared := f_bytes (fwrite (le_split 4 0) (fseek_set (hash_file db) (s * 4)))) in *.
  set (bs := f_bytes (hash_file db)) in *.
  (* the directory with the hash cleared *)
  assert (Hcl : cleared = firstn (Z.to_nat (4 * s)) bs ++ le_split 4 0
                          ++ skipn (Z.to_nat (4 * s) + 4) bs).
  { unfold cleared. rewrite fwrite_nonempty, fseek_set_nonneg by (lia || discriminate).
    cbn [f_bytes f_pos]. rewrite length_le_split. fold bs.
    replace (Z.to_nat (s * 4)) with (Z.to_nat (4 * s)) by lia.
    unfold resize.
    replace (Z.to_nat (4 * s) - List.length bs)%nat with 0%nat by lia.
    cbn [repeat]. now rewrite app_nil_r. }
  assert (Hpre : firstn (Z.to_nat (4 * s)) bs = repeat Byte.x00 (Z.to_nat (4 * s))).
  { unfold slice in Hzero. cbn [Z.to_nat skipn] in Hzero. exact Hzero. }
  assert (Hcll : List.length cleared = List.length bs).
  { rewrite Hcl, !length_app, length_firstn, length_le_split, length_skipn. lia. }
  assert (Hclz : slice 0 (4 * Z.of_nat (Z.to_nat (s + 1))) cleared
                 = repeat Byte.x00 (4 * Z.to_nat (s + 1))).
  { unfold slice. cbn [Z.to_nat skipn].
    rewrite Hcl, Hpre, app_assoc.
    replace (Z.to_nat (4 * Z.of_nat (Z.to_nat (s + 1))))
      with (Z.to_nat (4 * s) + 4)%nat by lia.
    rewrite firstn_app_exact
      by (rewrite length_app, repeat_length, length_le_split; lia).
    replace (4 * Z.to_nat (s + 1))%nat with (Z.to_nat (4 * s) + 4)%nat by lia.
    rewrite repeat_app. reflexivity. }
  (* the loop leaves the first 4 * s + 4 bytes *)
  destruct (update_loop_skips_zeros (Z.to_nat (s + 1)) 128
              (freed_position u db key) (freed_length u db key)
              (l_temp_hash u) (l_temp_position u) (l_temp_length u)
              cleared 0 ltac:(lia) Hclz ltac:(lia)) as [th' Hskip].
  rewrite Hskip in Hhf.
  pose proof (update_loop_keeps_prefix (128 - Z.to_nat (s + 1))
                (freed_position u db key) (freed_length u db key)
                th' (l_temp_position u) (l_temp_length u)
                (mkFILE cleared (0 + 4 * Z.of_nat (Z.to_nat (s + 1))))
                (4 * s + 4)) as Hkeep.
  cbn [f_pos f_bytes] in Hkeep. rewrite <- Hhf in Hkeep.
  specialize (Hkeep ltac:(lia) ltac:(lia) ltac:(lia) ltac:(lia)).
  (* the hash that is read *)
  assert (Hfield : slice (s * 4) (Z.of_nat 4) (f_bytes (hash_file db'))
                   = repeat Byte.x00 4).
  { replace (s * 4) with (0 + 4 * s) by lia.
    rewrite (slice_slice 0 (4 * s + 4) (4 * s) (Z.of_nat 4)) by lia.
    rewrite Hkeep.
    rewrite <- (slice_slice 0 (4 * s + 4) (4 * s) (Z.of_nat 4)) by lia.
    unfold slice. rewrite Hcl.
    replace (Z.to_nat (0 + 4 * s)) with (Z.to_nat (4 * s)) by lia.
    rewrite skipn_app_exact by (rewrite length_firstn; lia).
    apply firstn_app_exact. reflexivity. }
  rewrite db_get_unfold. unfold located, stored_hash. fold s.
  rewrite (fread_obj_zeros 4 _ (hash_file db') (s * 4) ltac:(lia) Hfield).
  cbn [fst].
  destruct (Z.eqb_spec 0 (hash_function key)) as [E|_]; [|reflexivity].
  exfalso. apply Hslot. unfold s. now rewrite <- E.
Qed.

(** [db_delete("a")] after the three puts of [session_three]: ["a"] has the
    lowest slot, and is not found afterwards. *)
Lemma db_delete_then_get_witness :
  fst (db_get zeroed (handle session_three) (str "a")) = mkGet 0 (str "AAAA") (Some 4)
  /\ exists db',
       db_delete zeroed (handle session_three) (str "a") = Some (0, db')
       /\ fst (db_get zeroed db' (str "a")) = mkGet (-1) [] None.
Proof.
  split; [vm_compute; reflexivity|].
  apply (db_delete_then_get zeroed zeroed (handle session_three) (str "a")).
  - vm_compute; reflexivity.
  - vm_compute; discriminate.
  - vm_compute; reflexivity.
  - vm_compute; discriminate.
  - vm_compute; reflexivity.
Defined.
